(** * TikTok video downloader (src/main.py): model and properties

    The script is embedded shallowly: every Python function of
    [src/main.py] becomes a computation in a small state-and-exception
    monad over a [World] (standard output, file system, log of transfers
    handed to the download engine).  The operating system ([os], [shutil],
    [sys]) and the download engine ([yt_dlp]) are external collaborators:
    their operations are the fields of an [Env] record and every property
    is proved for all environments.

    Python [str] values are modelled as [string], read as the UTF-8
    encoding of the text.  The package bootstrap [ensure_packages], which
    runs when the module is loaded, is outside the model. *)

From Stdlib Require Import Ascii String ZArith.
From stdpp Require Import base option list strings gmap.

Open Scope string_scope.

(** ** Python strings *)

Definition CR : string := String (ascii_of_nat 13) "".
Definition LF : string := String (ascii_of_nat 10) "".

(** One-byte whitespace of [str.isspace]: U+0009..U+000D, U+001C..U+001F
    and U+0020. *)
Definition is_space1 (a : ascii) : bool :=
  let n := nat_of_ascii a in
  (Nat.leb 9 n && Nat.leb n 13) || (Nat.leb 28 n && Nat.leb n 32).

(** Two-byte whitespace: U+0085 (C2 85) and U+00A0 (C2 A0). *)
Definition is_space2 (a b : ascii) : bool :=
  Nat.eqb (nat_of_ascii a) 194 &&
  (Nat.eqb (nat_of_ascii b) 133 || Nat.eqb (nat_of_ascii b) 160).

(** Three-byte whitespace: U+1680, U+2000..U+200A, U+2028, U+2029, U+202F,
    U+205F and U+3000. *)
Definition is_space3 (a b c : ascii) : bool :=
  let x := nat_of_ascii a in
  let y := nat_of_ascii b in
  let z := nat_of_ascii c in
  (Nat.eqb x 225 && Nat.eqb y 154 && Nat.eqb z 128) ||
  (Nat.eqb x 226 && Nat.eqb y 128 &&
     ((Nat.leb 128 z && Nat.leb z 138) || Nat.eqb z 168 || Nat.eqb z 169
      || Nat.eqb z 175)) ||
  (Nat.eqb x 226 && Nat.eqb y 129 && Nat.eqb z 159) ||
  (Nat.eqb x 227 && Nat.eqb y 128 && Nat.eqb z 128).

(** Drop leading whitespace.  [back] is set when the string is read from
    its end, where the bytes of a character come in reverse order. *)
Fixpoint drop_space (back : bool) (s : string) : string :=
  match s with
  | "" => ""
  | String a s1 =>
      if is_space1 a then drop_space back s1
      else
        match s1 with
        | "" => s
        | String b s2 =>
            if (if back then is_space2 b a else is_space2 a b)
            then drop_space back s2
            else
              match s2 with
              | "" => s
              | String c s3 =>
                  if (if back then is_space3 c b a else is_space3 a b c)
                  then drop_space back s3
                  else s
              end
        end
  end.

Definition string_rev (s : string) : string :=
  string_of_list_ascii (rev (list_ascii_of_string s)).

Definition lstrip (s : string) : string := drop_space false s.
Definition rstrip (s : string) : string :=
  string_rev (drop_space true (string_rev s)).

(** [s.strip()] *)
Definition strip (s : string) : string := lstrip (rstrip s).

(** [s.startswith(p)] *)
Fixpoint startswith (s p : string) : bool :=
  match p, s with
  | "", _ => true
  | String b p', String a s' => if Ascii.eqb a b then startswith s' p' else false
  | String _ _, "" => false
  end.

(** [s * n] *)
Fixpoint str_mul (s : string) (n : nat) : string :=
  match n with
  | O => ""
  | S n' => s +:+ str_mul s n'
  end.

(** Truth value of a [str]: the empty string is false. *)
Definition truthy (s : string) : bool := negb (String.eqb s "").

(** [s.split(sep)] for a one-character separator. *)
Fixpoint split (sep : ascii) (s : string) : list string :=
  match s with
  | "" => [""]
  | String a s' =>
      if Ascii.eqb a sep then "" :: split sep s'
      else
        match split sep s' with
        | [] => [String a ""]
        | w :: ws => String a w :: ws
        end
  end.

(** ** Exceptions

    [exception] lists the classes below [Exception]; [raised] is what a
    [raise] can carry: an [Exception], or the [SystemExit] of [sys.exit],
    which [except Exception] lets through. *)

Inductive exception : Type :=
  | DownloadError (msg : string)
  | ImportError (msg : string)
  | EOFError
  | KeyError (key : string)
  | OSError (msg : string)
  | TypeError (msg : string)
  | OtherException (name msg : string).

Inductive raised : Type :=
  | Exc (e : exception)
  | SystemExit (code : Z).

(** [str(exc)] *)
Definition str_exc (e : exception) : string :=
  match e with
  | DownloadError msg | ImportError msg | OSError msg | TypeError msg
  | OtherException _ msg => msg
  | EOFError => ""
  | KeyError key => "'" +:+ key +:+ "'"
  end.

(** ** Values found in the engine's metadata

    The entries of the dictionary [extract_info] returns are Python
    objects: a field the extractor could not resolve is present with the
    value [None]. *)

Inductive pyvalue : Type :=
  | PyNone
  | PyStr (s : string)
  | PyInt (n : Z).

(** [type(v).__name__] *)
Definition type_name (v : pyvalue) : string :=
  match v with
  | PyNone => "NoneType"
  | PyStr _ => "str"
  | PyInt _ => "int"
  end.

(** ** Values stored in the engine's option dictionary *)

Inductive hook : Type := Hook_progress_hook.

Record ImpersonateTarget : Type :=
  { client : string; version : string }.

Inductive value : Type :=
  | VStr (s : string)
  | VBool (b : bool)
  | VHooks (hs : list hook)
  | VDict (d : gmap string string)
  | VDictList (ds : list (gmap string string))
  | VTarget (t : ImpersonateTarget).

(** ** The world and the environment *)

Record World (FS : Type) : Type := mkWorld
  { stdout : string;
    fs : FS;
    transfers : list (string * gmap string value) }.
Arguments mkWorld {FS} _ _ _.
Arguments stdout {FS} _.
Arguments fs {FS} _.
Arguments transfers {FS} _.

Record Env (FS : Type) : Type := mkEnv
  { (* sys *)
    sys_argv : list string;
    stdin_line : option string;
    (* shutil, os, os.path *)
    shutil_which : string -> FS -> option string;
    os_path_exists : string -> FS -> bool;
    os_makedirs : string -> FS -> option raised * FS;
    os_path_join : list string -> string;
    os_path_abspath : string -> string;
    os_path_basename : string -> string;
    (* yt_dlp *)
    import_impersonate : option exception;
    extract_info :
      string -> gmap string value -> string * FS ->
      (raised + option (gmap string pyvalue)) * (string * FS);
    YoutubeDL_init :
      gmap string value -> string * FS -> option raised * (string * FS);
    YoutubeDL_exit : string * FS -> option raised * (string * FS) }.
Arguments sys_argv {FS} _.
Arguments stdin_line {FS} _.
Arguments shutil_which {FS} _ _ _.
Arguments os_path_exists {FS} _ _ _.
Arguments os_makedirs {FS} _ _ _.
Arguments os_path_join {FS} _ _.
Arguments os_path_abspath {FS} _ _.
Arguments os_path_basename {FS} _ _.
Arguments import_impersonate {FS} _.
Arguments extract_info {FS} _ _ _ _.
Arguments YoutubeDL_init {FS} _ _ _.
Arguments YoutubeDL_exit {FS} _ _.

(** ** The monad of statements *)

Inductive result (A : Type) : Type :=
  | Ret (a : A)
  | Raise (e : raised).
Arguments Ret {A} _.
Arguments Raise {A} _.

Definition M (FS A : Type) : Type := World FS -> result A * World FS.

Definition ret {FS A} (a : A) : M FS A := fun w => (Ret a, w).

Definition bind {FS A B} (m : M FS A) (k : A -> M FS B) : M FS B :=
  fun w =>
    match m w with
    | (Ret a, w') => k a w'
    | (Raise e, w') => (Raise e, w')
    end.

Definition raise {FS A} (e : raised) : M FS A := fun w => (Raise e, w).

Declare Scope py_scope.
Delimit Scope py_scope with py.
Notation "x <- m ;; k" := (bind m (fun x => k))
  (at level 100, m at next level, right associativity) : py_scope.
Notation "m ;;; k" := (bind m (fun _ => k))
  (at level 100, right associativity) : py_scope.
Open Scope py_scope.

(** [try: body except Exception: handler] *)
Definition try_except_Exception {FS A}
    (body : M FS A) (handler : exception -> M FS A) : M FS A :=
  fun w =>
    match body w with
    | (Raise (Exc e), w') => handler e w'
    | r => r
    end.

(** [try: body except yt_dlp.utils.DownloadError as exc: handler] *)
Definition try_except_DownloadError {FS A}
    (body : M FS A) (handler : exception -> M FS A) : M FS A :=
  fun w =>
    match body w with
    | (Raise (Exc (DownloadError msg)), w') => handler (DownloadError msg) w'
    | r => r
    end.

(** [print(s, end=e)] and [print(s)] *)
Definition print_end {FS} (s e : string) : M FS unit :=
  fun w => (Ret tt, mkWorld (stdout w +:+ s +:+ e) (fs w) (transfers w)).

Definition print {FS} (s : string) : M FS unit := print_end s LF.

(** [sys.exit(code)] *)
Definition sys_exit {FS A} (code : Z) : M FS A := raise (SystemExit code).

(** [if c: body] *)
Definition when {FS} (c : bool) (body : M FS unit) : M FS unit :=
  if c then body else ret tt.

(** Truth value of a list, and of the result of [extract_info] ([None]
    and the empty dictionary are false). *)
Definition truthy_list {A} (l : list A) : bool :=
  match l with
  | [] => false
  | _ :: _ => true
  end.

Definition truthy_info (info : option (gmap string pyvalue)) : bool :=
  match info with
  | None => false
  | Some d => negb (bool_decide (d = ∅))
  end.

(** [d.get(key, dflt)] on the result of [extract_info]; it is only
    evaluated when [info] is true. *)
Definition info_get (info : option (gmap string pyvalue))
    (key : string) (dflt : pyvalue) : pyvalue :=
  match info with
  | None => dflt
  | Some d => default dflt (d !! key)
  end.

(** ** The program *)

Section Program.
Context {FS : Type} (env : Env FS).

Local Abbreviation M := (M FS).

(** *** Calls into the environment *)

Definition which (cmd : string) : M (option string) :=
  fun w => (Ret (shutil_which env cmd (fs w)), w).

Definition exists_ (p : string) : M bool :=
  fun w => (Ret (os_path_exists env p (fs w)), w).

(** [os.makedirs(p, exist_ok=True)].  A call that raises may already
    have created some of the directories. *)
Definition makedirs (p : string) : M unit :=
  fun w =>
    let '(r, fs') := os_makedirs env p (fs w) in
    let w' := mkWorld (stdout w) fs' (transfers w) in
    match r with
    | None => (Ret tt, w')
    | Some e => (Raise e, w')
    end.

(** [input(prompt)] *)
Definition input (prompt : string) : M string :=
  print_end prompt "";;;
  match stdin_line env with
  | Some line => ret line
  | None => raise (Exc EOFError)
  end.

(** [from yt_dlp.networking.impersonate import ImpersonateTarget] *)
Definition import_ImpersonateTarget : M unit :=
  match import_impersonate env with
  | None => ret tt
  | Some e => raise (Exc e)
  end.

(** [os.path.join(a, v)]: [os.fspath] refuses what is neither a string
    nor a path. *)
Definition path_join (a : string) (v : pyvalue) : M string :=
  match v with
  | PyStr b => ret (os_path_join env [a; b])
  | _ =>
      raise (Exc (TypeError ("expected str, bytes or os.PathLike object, not "
                             +:+ type_name v)))
  end.

(** The options and the URL about to be handed to the engine are
    logged. *)
Definition hand_over (url : string) (opts : gmap string value) : M unit :=
  fun w =>
    (Ret tt, mkWorld (stdout w) (fs w) (transfers w ++ [(url, opts)])).

(** Leaving the [with] block: [__exit__] runs whether the body returned
    or raised; when it raises, its exception replaces the outcome of the
    body. *)
Definition leave_with {A} (rw : result A * World FS) : result A * World FS :=
  let '(res, w) := rw in
  let '(x, (out, fs')) := YoutubeDL_exit env (stdout w, fs w) in
  (match x with None => res | Some e => Raise e end,
   mkWorld out fs' (transfers w)).

(** [with yt_dlp.YoutubeDL(opts) as ydl: body].  Building the object and
    entering the block may raise; then the body and [__exit__] do not
    run. *)
Definition with_YoutubeDL {A} (opts : gmap string value) (body : M A) : M A :=
  fun w =>
    let '(r, (out, fs')) := YoutubeDL_init env opts (stdout w, fs w) in
    let w1 := mkWorld out fs' (transfers w) in
    match r with
    | Some e => (Raise e, w1)
    | None => leave_with (body w1)
    end.

(** [ydl.extract_info(url, download=True)].  The engine writes to the
    terminal and to the file system as it likes, which covers the calls
    of the progress hook it was given. *)
Definition ydl_extract_info (url : string) (opts : gmap string value)
    : M (option (gmap string pyvalue)) :=
  fun w =>
    let '(r, (out, fs')) := extract_info env url opts (stdout w, fs w) in
    let w' := mkWorld out fs' (transfers w) in
    match r with
    | inl e => (Raise e, w')
    | inr info => (Ret info, w')
    end.

(** *** [has_ffmpeg] *)

Definition ffmpeg_paths : list string :=
  [ "C:\ffmpeg\bin\ffmpeg.exe";
    "C:\Program Files\ffmpeg\bin\ffmpeg.exe" ].

(** The [for p in ...: if os.path.exists(p): return True] loop, followed
    by [return False]. *)
Fixpoint has_ffmpeg_loop (ps : list string) : M bool :=
  match ps with
  | [] => ret false
  | p :: ps' =>
      e <- exists_ p;;
      if e then ret true else has_ffmpeg_loop ps'
  end.

Definition has_ffmpeg : M bool :=
  found <- which "ffmpeg";;
  if match found with Some p => truthy p | None => false end
  then ret true
  else has_ffmpeg_loop ffmpeg_paths.

(** *** [progress_hook] *)

(** [d[key]] *)
Definition getitem (d : gmap string string) (key : string) : M string :=
  match d !! key with
  | Some v => ret v
  | None => raise (Exc (KeyError key))
  end.

(** [d.get(key, dflt)] *)
Definition get (d : gmap string string) (key dflt : string) : string :=
  default dflt (d !! key).

Definition progress_line (pct speed eta : string) : string :=
  CR +:+ "  ⬇  " +:+ pct +:+ "  |  speed: " +:+ speed +:+ "  |  ETA: "
     +:+ eta +:+ "   ".

Definition progress_hook (d : gmap string string) : M unit :=
  status <- getitem d "status";;
  if String.eqb status "downloading" then
    let pct := strip (get d "_percent_str" "?%") in
    let speed := strip (get d "_speed_str" "?") in
    let eta := strip (get d "_eta_str" "?") in
    print_end (progress_line pct speed eta) ""
  else
    status <- getitem d "status";;
    if String.eqb status "finished" then
      filename <- getitem d "filename";;
      print (LF +:+ "  ✔  Download complete → "
                +:+ os_path_basename env filename)
    else
      status <- getitem d "status";;
      if String.eqb status "error" then
        print (LF +:+ "  ❌  An error occurred during download.")
      else ret tt.

(** *** [_print_tips] *)

Definition _print_tips : M unit :=
  print (LF +:+ "💡  Troubleshooting tips:");;;
  print "  1. Make sure the video is public.";;;
  print "  2. Update yt-dlp          →  pip install -U yt-dlp";;;
  print "  3. Install curl_cffi      →  pip install curl_cffi";;;
  print "  4. Install ffmpeg for mp4 →  https://ffmpeg.org/download.html";;;
  print "  5. Try with browser cookies (uncomment 'cookiesfrombrowser' in the script).";;;
  print ("  6. Some regions require a VPN." +:+ LF).

(** *** [download_tiktok] *)

(** The two branches of [if ffmpeg_ok:], lines 87-98. *)
Definition fmt (ffmpeg_ok : bool) : string :=
  if ffmpeg_ok then
    "bestvideo[ext=mp4]+bestaudio[ext=m4a]/"
    +:+ "bestvideo[ext=mp4]+bestaudio/"
    +:+ "bestvideo+bestaudio/best"
  else "best[ext=mp4]/best".

Definition postprocessors (ffmpeg_ok : bool) : list (gmap string string) :=
  if ffmpeg_ok then
    [ {[ "key" := "FFmpegVideoConvertor"; "preferedformat" := "mp4" ]} ]
  else [].

Definition http_headers : gmap string string :=
  {[ "User-Agent" :=
       "Mozilla/5.0 (Windows NT 10.0; Win64; x64) "
       +:+ "AppleWebKit/537.36 (KHTML, like Gecko) "
       +:+ "Chrome/124.0.0.0 Safari/537.36";
     "Referer" := "https://www.tiktok.com/";
     "Accept-Language" := "en-US,en;q=0.9" ]}.

(** The dictionary literal of lines 100-124. *)
Definition opts0 (output_dir : string) (ffmpeg_ok : bool)
    : gmap string value :=
  {[ "outtmpl" :=
       VStr (os_path_join env [output_dir; "%(uploader)s"; "%(title)s.%(ext)s"]);
     "format" := VStr (fmt ffmpeg_ok);
     "merge_output_format" := VStr "mp4";
     "nooverwrites" := VBool true;
     "quiet" := VBool false;
     "no_warnings" := VBool false;
     "progress_hooks" := VHooks [Hook_progress_hook];
     "http_headers" := VDict http_headers ]}.

(** Lines 127-132.  The dictionary is only changed by the assignment, the
    second statement of the [try] block. *)
Definition enable_impersonation (opts : gmap string value)
    : M (gmap string value) :=
  try_except_Exception
    (import_ImpersonateTarget;;;
     let opts' :=
       <[ "impersonate" := VTarget {| client := "chrome"; version := "124" |} ]> opts in
     print ("✔  curl_cffi impersonation enabled (Chrome 124)." +:+ LF);;;
     ret opts')
    (fun _ => ret opts).

(** Lines 134-135. *)
Definition add_postprocessors (pps : list (gmap string string))
    (opts : gmap string value) : gmap string value :=
  if truthy_list pps then <[ "postprocessors" := VDictList pps ]> opts
  else opts.

(** The body of the [with] block, lines 138-148. *)
Definition with_body (url output_dir : string) (opts : gmap string value)
    : M bool :=
  try_except_DownloadError
    (info <- ydl_extract_info url opts;;
     let uploader :=
       if truthy_info info then info_get info "uploader" (PyStr "unknown")
       else PyStr "unknown" in
     joined <- path_join output_dir uploader;;
     let saved_to := os_path_abspath env joined in
     print (LF +:+ "✅  Video saved to: " +:+ saved_to);;;
     ret true)
    (fun exc =>
       print (LF +:+ "❌  Download failed: " +:+ str_exc exc);;;
       _print_tips;;;
       ret false).

Definition download_tiktok (url output_dir : string) : M bool :=
  makedirs output_dir;;;
  ffmpeg_ok <- has_ffmpeg;;
  (if ffmpeg_ok
   then print ("✔  ffmpeg detected — output will be remuxed to mp4." +:+ LF)
   else print ("⚠️  ffmpeg not found — downloading best pre-muxed mp4." +:+ LF));;;
  opts <- enable_impersonation (opts0 output_dir ffmpeg_ok);;
  let opts := add_postprocessors (postprocessors ffmpeg_ok) opts in
  hand_over url opts;;;
  with_YoutubeDL opts (with_body url output_dir opts).

(** *** [main] *)

Definition main : M unit :=
  print (str_mul "=" 56);;;
  print "        🎵  TikTok Video Downloader by URL  🎵";;;
  print (str_mul "=" 56);;;
  url <- (if Nat.ltb 1 (length (sys_argv env))
          then ret (strip (nth 1 (sys_argv env) ""))
          else
            print (LF +:+ "Paste the full TikTok video URL below.");;;
            print ("Example: https://www.tiktok.com/@username/video/123..." +:+ LF);;;
            line <- input "🔗  Video URL: ";;
            ret (strip line));;
  when (negb (truthy url))
    (print "❌  No URL provided. Exiting.";;; sys_exit 1);;;
  when (negb (startswith url "http"))
    (print "❌  Invalid URL — must start with 'https://'";;; sys_exit 1);;;
  print "";;;
  _ <- download_tiktok url "tiktok_downloads";;
  ret tt.

(** The status with which the interpreter leaves [main()]: 0 after a
    normal return, the code of [sys.exit], 1 after any other uncaught
    exception. *)
Definition exit_code (w : World FS) : Z :=
  match fst (main w) with
  | Ret _ => 0
  | Raise (SystemExit code) => code
  | Raise _ => 1
  end.

End Program.

(** ** Format selectors

    The engine reads a format expression as alternatives separated by [/],
    tried from left to right; an alternative joins the streams it merges
    with [+]; a stream is [bestvideo], [bestaudio] or [best] (a single
    stream that carries both), optionally restricted to a container by
    [[ext=...]]. *)

Inductive stream : Type := BestVideo | BestAudio | Best.

Record selector : Type :=
  { sel_stream : stream; sel_ext : option string }.

Definition parse_stream (s : string) : option stream :=
  if String.eqb s "bestvideo" then Some BestVideo
  else if String.eqb s "bestaudio" then Some BestAudio
  else if String.eqb s "best" then Some Best
  else None.

(** [Some rest] when [s] is [p] followed by [rest]. *)
Fixpoint strip_prefix (p s : string) : option string :=
  match p, s with
  | "", _ => Some s
  | String b p', String a s' => if Ascii.eqb a b then strip_prefix p' s' else None
  | String _ _, "" => None
  end.

Definition strip_suffix (p s : string) : option string :=
  string_rev <$> strip_prefix (string_rev p) (string_rev s).

Definition parse_selector (s : string) : option selector :=
  match split "[" s with
  | [name] =>
      st ← parse_stream name;
      Some {| sel_stream := st; sel_ext := None |}
  | [name; filter] =>
      st ← parse_stream name;
      body ← strip_suffix "]" filter;
      ext ← strip_prefix "ext=" body;
      Some {| sel_stream := st; sel_ext := Some ext |}
  | _ => None
  end.

Definition parse_format (s : string) : option (list (list selector)) :=
  mapM (fun tier => mapM parse_selector (split "+" tier)) (split "/" s).

(** ** A POSIX environment

    A concrete environment on which the program can be run: the file
    system is the list of existing paths, [os.path] follows [posixpath]
    (without normalisation in [abspath]), and the engine prints one line
    and answers with a fixed result. *)

Definition posix_join2 (a b : string) : string :=
  if startswith b "/" then b
  else if String.eqb a "" || startswith (string_rev a) "/" then a +:+ b
  else a +:+ "/" +:+ b.

Definition posix_join (ps : list string) : string :=
  match ps with
  | [] => ""
  | p :: ps' => fold_left posix_join2 ps' p
  end.

Definition posix_basename (p : string) : string :=
  List.last (split "/" p) "".

Definition posix_env (argv : list string) (line : option string)
    (ffmpeg : option string) (imp : option exception)
    (engine : raised + option (gmap string pyvalue)) : Env (list string) :=
  {| sys_argv := argv;
     stdin_line := line;
     shutil_which := fun cmd _ => if String.eqb cmd "ffmpeg" then ffmpeg else None;
     os_path_exists := fun p paths => bool_decide (p ∈ paths);
     os_makedirs := fun p paths =>
       (None, if bool_decide (p ∈ paths) then paths else p :: paths);
     os_path_join := posix_join;
     os_path_abspath := fun p => posix_join ["/home/user"; p];
     os_path_basename := posix_basename;
     import_impersonate := imp;
     extract_info := fun url _ '(out, paths) =>
       (engine, (out +:+ "[tiktok] " +:+ url +:+ LF, paths));
     YoutubeDL_init := fun _ st => (None, st);
     YoutubeDL_exit := fun st => (None, st) |}.

Definition empty_world : World (list string) := mkWorld "" [] [].

(** ** What the program computes, in closed form *)

Section Closed.
Context {FS : Type} (env : Env FS).

(** The value [has_ffmpeg] returns on a file system. *)
Definition ffmpeg_found (files : FS) : bool :=
  match shutil_which env "ffmpeg" files with
  | Some p => truthy p
  | None => false
  end
  || existsb (fun p => os_path_exists env p files) ffmpeg_paths.

(** The dictionary [download_tiktok] hands to [YoutubeDL]. *)
Definition engine_opts (output_dir : string) (files : FS)
    : gmap string value :=
  let ffmpeg_ok := ffmpeg_found files in
  add_postprocessors (postprocessors ffmpeg_ok)
    match import_impersonate env with
    | None =>
        <[ "impersonate" := VTarget {| client := "chrome"; version := "124" |} ]>
          (opts0 env output_dir ffmpeg_ok)
    | Some _ => opts0 env output_dir ffmpeg_ok
    end.

(** What [download_tiktok] has printed when it builds the engine
    object. *)
Definition engine_stdout (out : string) (files : FS) : string :=
  out
  +:+ (if ffmpeg_found files
       then "✔  ffmpeg detected — output will be remuxed to mp4." +:+ LF +:+ LF
       else "⚠️  ffmpeg not found — downloading best pre-muxed mp4." +:+ LF +:+ LF)
  +:+ match import_impersonate env with
      | None => "✔  curl_cffi impersonation enabled (Chrome 124)." +:+ LF +:+ LF
      | Some _ => ""
      end.

(** The value bound to [uploader] on line 140. *)
Definition uploader_of (info : option (gmap string pyvalue)) : pyvalue :=
  match info with
  | Some d => default (PyStr "unknown") (d !! "uploader")
  | None => PyStr "unknown"
  end.

(** The text of [_print_tips]: a heading and six numbered hints. *)
Definition advisory : list string :=
  [ "  1. Make sure the video is public.";
    "  2. Update yt-dlp          →  pip install -U yt-dlp";
    "  3. Install curl_cffi      →  pip install curl_cffi";
    "  4. Install ffmpeg for mp4 →  https://ffmpeg.org/download.html";
    "  5. Try with browser cookies (uncomment 'cookiesfrombrowser' in the script).";
    "  6. Some regions require a VPN." +:+ LF ].

Definition lines (ls : list string) : string :=
  fold_right (fun l rest => l +:+ LF +:+ rest) "" ls.

Definition tips_text : string :=
  LF +:+ "💡  Troubleshooting tips:" +:+ LF +:+ lines advisory.

(** The URL [main] reads, before [strip()]: the first argument of the
    command line, else the line typed at the prompt. *)
Definition raw_url : option string :=
  if Nat.ltb 1 (length (sys_argv env))
  then Some (nth 1 (sys_argv env) "")
  else stdin_line env.

(** What [main] prints before it validates the URL. *)
Definition banner : string :=
  lines [ str_mul "=" 56;
          "        🎵  TikTok Video Downloader by URL  🎵";
          str_mul "=" 56 ]
  +:+ (if Nat.ltb 1 (length (sys_argv env)) then ""
       else lines [ LF +:+ "Paste the full TikTok video URL below.";
                    "Example: https://www.tiktok.com/@username/video/123..." +:+ LF ]
            +:+ "🔗  Video URL: ").

End Closed.

(** ** Three runs

    A run with ffmpeg on the path, no impersonation module and an engine
    that reports a download error; a run started without arguments whose
    URL is typed at the prompt and downloads; a run with a malformed
    command-line argument. *)

Definition tiktok_url : string := "https://www.tiktok.com/@user/video/123".

Definition env_failure : Env (list string) :=
  posix_env ["main.py"; tiktok_url] None (Some "/usr/bin/ffmpeg")
    (Some (ImportError "No module named 'curl_cffi'"))
    (inl (Exc (DownloadError "ERROR: Unable to extract webpage video data"))).

Definition env_success : Env (list string) :=
  posix_env ["main.py"] (Some ("  " +:+ tiktok_url +:+ " ")) None None
    (inr (Some {[ "uploader" := PyStr "user"; "title" := PyStr "clip";
                  "ext" := PyStr "mp4" ]})).

(** The engine resolves no uploader and returns the entry as [None]. *)
Definition env_uploader_none : Env (list string) :=
  posix_env ["main.py"; tiktok_url] None None None
    (inr (Some {[ "uploader" := PyNone; "title" := PyStr "clip";
                  "ext" := PyStr "mp4" ]})).

(** The impersonation module can be imported, but no impersonation
    target is available to the engine: it refuses options that ask for
    one. *)
Definition env_no_target : Env (list string) :=
  {| sys_argv := ["main.py"; tiktok_url];
     stdin_line := None;
     shutil_which := fun _ _ => None;
     os_path_exists := fun p paths => bool_decide (p ∈ paths);
     os_makedirs := fun p paths =>
       (None, if bool_decide (p ∈ paths) then paths else p :: paths);
     os_path_join := posix_join;
     os_path_abspath := fun p => posix_join ["/home/user"; p];
     os_path_basename := posix_basename;
     import_impersonate := None;
     extract_info := fun url _ '(out, paths) =>
       (inr (Some {[ "uploader" := PyStr "user" ]}),
        (out +:+ "[tiktok] " +:+ url +:+ LF, paths));
     YoutubeDL_init := fun opts st =>
       match opts !! "impersonate" with
       | Some _ =>
           (Some (Exc (OtherException "YoutubeDLError"
                         "Impersonate target chrome-124 is not available")),
            st)
       | None => (None, st)
       end;
     YoutubeDL_exit := fun st => (None, st) |}.

Definition env_invalid : Env (list string) :=
  posix_env ["main.py"; "not-a-url"] None None None (inr None).

Definition event_downloading : gmap string string :=
  {[ "status" := "downloading"; "_percent_str" := " 42.0%";
     "_speed_str" := "1.2MiB/s"; "_eta_str" := "00:03" ]}.

Definition event_bare : gmap string string := {[ "status" := "downloading" ]}.

Definition event_finished : gmap string string :=
  {[ "status" := "finished"; "filename" := "tiktok_downloads/user/clip.mp4" ]}.

Definition event_paused : gmap string string := {[ "status" := "paused" ]}.

(** ** The package bootstrap and the module body

    [ensure_packages] (lines 27-34) needs two more collaborators: the
    import system and the [pip] subprocess started by
    [subprocess.check_call], which shares the terminal and the file system
    with the script. *)

Record Pip (FS : Type) : Type := mkPip
  { sys_executable : string;
    py_import : string -> FS -> option raised;
    check_call : list string -> string * FS -> option raised * (string * FS) }.
Arguments sys_executable {FS} _.
Arguments py_import {FS} _ _ _.
Arguments check_call {FS} _ _ _.

(** [try: body except ImportError: handler] *)
Definition try_except_ImportError {FS A}
    (body : M FS A) (handler : M FS A) : M FS A :=
  fun w =>
    match body w with
    | (Raise (Exc (ImportError _)), w') => handler w'
    | r => r
    end.

Section Bootstrap.
Context {FS : Type} (pip : Pip FS) (env : Env FS).

(** [__import__(name)] and [import name] *)
Definition import_ (name : string) : M FS unit :=
  fun w =>
    match py_import pip name (fs w) with
    | None => (Ret tt, w)
    | Some e => (Raise e, w)
    end.

(** [subprocess.check_call(args)] *)
Definition subprocess_check_call (args : list string) : M FS unit :=
  fun w =>
    let '(r, (out, fs')) := check_call pip args (stdout w, fs w) in
    let w' := mkWorld out fs' (transfers w) in
    match r with
    | None => (Ret tt, w')
    | Some e => (Raise e, w')
    end.

Definition packages : list (string * string) :=
  [ ("yt-dlp", "yt_dlp"); ("curl_cffi", "curl_cffi") ].

(** The handler of line 31-34. *)
Definition install (pip_name : string) : M FS unit :=
  print ("📦 Installing " +:+ pip_name +:+ " ...");;;
  subprocess_check_call
    [sys_executable pip; "-m"; "pip"; "install"; pip_name; "-q"];;;
  print ("✔  " +:+ pip_name +:+ " installed." +:+ LF).

(** The [for pip_name, import_name in ...] loop. *)
Fixpoint ensure_packages_loop (pkgs : list (string * string)) : M FS unit :=
  match pkgs with
  | [] => ret tt
  | (pip_name, import_name) :: rest =>
      try_except_ImportError (import_ import_name) (install pip_name);;;
      ensure_packages_loop rest
  end.

Definition ensure_packages : M FS unit := ensure_packages_loop packages.

(** The module body: lines 37-38 and 192-193.  [name_is_main] tells
    whether [__name__ == "__main__"]. *)
Definition module (name_is_main : bool) : M FS unit :=
  ensure_packages;;;
  import_ "yt_dlp";;;
  if name_is_main then main env else ret tt.

End Bootstrap.

(** ** The engine calling the progress hook

    The hook is called once per event, in order; an exception in the hook
    ends the sequence. *)

Fixpoint progress_hook_each {FS : Type} (env : Env FS)
    (events : list (gmap string string)) : M FS unit :=
  match events with
  | [] => ret tt
  | d :: rest => progress_hook env d;;; progress_hook_each env rest
  end.

(** [env] with another command line and another line on standard input. *)
Definition with_cli {FS : Type} (env : Env FS) (argv : list string)
    (line : option string) : Env FS :=
  {| sys_argv := argv;
     stdin_line := line;
     shutil_which := shutil_which env;
     os_path_exists := os_path_exists env;
     os_makedirs := os_makedirs env;
     os_path_join := os_path_join env;
     os_path_abspath := os_path_abspath env;
     os_path_basename := os_path_basename env;
     import_impersonate := import_impersonate env;
     extract_info := extract_info env;
     YoutubeDL_init := YoutubeDL_init env;
     YoutubeDL_exit := YoutubeDL_exit env |}.

(** A [pip] that finds [present] importable and installs whatever it is
    asked to, printing nothing; and one whose installation fails. *)
Definition pip_ok (present : list string) : Pip (list string) :=
  {| sys_executable := "/usr/bin/python3";
     py_import := fun name paths =>
       if bool_decide (name ∈ present) || bool_decide (name ∈ paths) then None
       else Some (Exc (ImportError ("No module named '" +:+ name +:+ "'")));
     check_call := fun args '(out, paths) =>
       let name := List.nth 4 args "" in
       (None,
        (out, (if String.eqb name "yt-dlp" then "yt_dlp" else name) :: paths)) |}.

Definition pip_broken : Pip (list string) :=
  {| sys_executable := "/usr/bin/python3";
     py_import := fun name _ =>
       Some (Exc (ImportError ("No module named '" +:+ name +:+ "'")));
     check_call := fun _ st =>
       (Some (Exc (OtherException "CalledProcessError"
                     "returned non-zero exit status 1")), st) |}.

(** A [pip] that reports success without making anything importable. *)
Definition pip_noop : Pip (list string) :=
  {| sys_executable := "/usr/bin/python3";
     py_import := fun name _ =>
       Some (Exc (ImportError ("No module named '" +:+ name +:+ "'")));
     check_call := fun _ st => (None, st) |}.

(** More runs: a read-only working directory, an upper-case scheme, a
    closed standard input, a URL typed with spaces around it. *)
Definition env_readonly : Env (list string) :=
  {| sys_argv := ["main.py"; tiktok_url];
     stdin_line := None;
     shutil_which := fun _ _ => None;
     os_path_exists := fun _ _ => false;
     os_makedirs := fun _ paths =>
       (Some (Exc (OSError "[Errno 13] Permission denied")), paths);
     os_path_join := posix_join;
     os_path_abspath := fun p => posix_join ["/home/user"; p];
     os_path_basename := posix_basename;
     import_impersonate := None;
     extract_info := fun _ _ st => (inr None, st);
     YoutubeDL_init := fun _ st => (None, st);
     YoutubeDL_exit := fun st => (None, st) |}.

Definition env_uppercase : Env (list string) :=
  posix_env ["main.py"; "HTTPS://www.tiktok.com/@user/video/123"]
    None None None (inr None).

Definition env_eof : Env (list string) :=
  posix_env ["main.py"] None None None (inr None).

Definition event_error : gmap string string := {[ "status" := "error" ]}.

Definition event_finished_no_file : gmap string string :=
  {[ "status" := "finished" ]}.

Definition event_noisy : gmap string string :=
  {[ "status" := "downloading"; "_percent_str" := " 42.0%";
     "_speed_str" := "1.2MiB/s"; "_eta_str" := "00:03";
     "downloaded_bytes" := "1024"; "tmpfilename" := "clip.mp4.part" ]}.

(** What a downloading event adds to the terminal, and what a sequence
    of them adds. *)
Definition status_line (d : gmap string string) : string :=
  progress_line (strip (get d "_percent_str" "?%"))
    (strip (get d "_speed_str" "?")) (strip (get d "_eta_str" "?")).

Definition status_lines (events : list (gmap string string)) : string :=
  fold_right (fun d rest => status_line d +:+ rest) "" events.

(** * Properties *)

(** ** Strings *)

Lemma str_app_assoc (a b c : string) : (a +:+ b) +:+ c = a +:+ b +:+ c.
Proof.
  induction a as [|x a IH]; [reflexivity |].
  change (String x ((a +:+ b) +:+ c) = String x (a +:+ b +:+ c)).
  congruence.
Qed.

Lemma str_app_nil_r (a : string) : a +:+ "" = a.
Proof.
  induction a as [|x a IH]; [reflexivity |].
  change (String x (a +:+ "") = String x a). congruence.
Qed.

Lemma truthy_false_iff (s : string) : truthy s = false <-> s = "".
Proof.
  unfold truthy. destruct (String.eqb_spec s ""); simpl; split; congruence.
Qed.

Lemma eqb_false_of_ne (s t : string) : s ≠ t -> String.eqb s t = false.
Proof. intros H. by apply String.eqb_neq. Qed.

(** ** Stepping through statements *)

Section Steps.
Context {FS : Type}.
Implicit Types w : World FS.

Lemma world_eta w : mkWorld (stdout w) (fs w) (transfers w) = w.
Proof. by destruct w. Qed.

Lemma bind_Ret {A B} (m : M FS A) (k : A -> M FS B) w a w' :
  m w = (Ret a, w') -> bind m k w = k a w'.
Proof. intros H. unfold bind. by rewrite H. Qed.

Lemma bind_Raise {A B} (m : M FS A) (k : A -> M FS B) w e w' :
  m w = (Raise e, w') -> bind m k w = (Raise e, w').
Proof. intros H. unfold bind. by rewrite H. Qed.

Lemma bind_print {B} (s : string) (k : unit -> M FS B) w :
  bind (print s) k w
  = k tt (mkWorld (stdout w +:+ s +:+ LF) (fs w) (transfers w)).
Proof. reflexivity. Qed.

Lemma bind_print_end {B} (s e : string) (k : unit -> M FS B) w :
  bind (print_end s e) k w
  = k tt (mkWorld (stdout w +:+ s +:+ e) (fs w) (transfers w)).
Proof. reflexivity. Qed.

Lemma bind_ret {A B} (a : A) (k : A -> M FS B) w : bind (ret a) k w = k a w.
Proof. reflexivity. Qed.

Lemma bind_assoc {A B C} (m : M FS A) (f : A -> M FS B)
    (g : B -> M FS C) w :
  bind (bind m f) g w = bind m (fun a => bind (f a) g) w.
Proof. unfold bind. by destruct (m w) as [[a|e] w']. Qed.

Lemma bind_raise {A B} (e : raised) (k : A -> M FS B) w :
  bind (raise e) k w = (Raise e, w).
Proof. reflexivity. Qed.
End Steps.

Ltac step :=
  first [ rewrite bind_print | rewrite bind_print_end
        | rewrite bind_ret | rewrite bind_raise
        | rewrite bind_assoc ];
  cbn [stdout fs transfers].

(** ** The capability probe *)

Section Probe.
Context {FS : Type} (env : Env FS).
Implicit Types w : World FS.

Lemma has_ffmpeg_loop_run (ps : list string) w :
  has_ffmpeg_loop env ps w
  = (Ret (existsb (fun p => os_path_exists env p (fs w)) ps), w).
Proof.
  induction ps as [|p ps IH]; [reflexivity |].
  cbn [has_ffmpeg_loop existsb]. unfold bind, exists_.
  destruct (os_path_exists env p (fs w)); [reflexivity | exact IH].
Qed.

Lemma has_ffmpeg_run w :
  has_ffmpeg env w = (Ret (ffmpeg_found env (fs w)), w).
Proof.
  unfold has_ffmpeg, ffmpeg_found, bind, which.
  destruct (match shutil_which env "ffmpeg" (fs w) with
            | Some p => truthy p
            | None => false
            end); [reflexivity |].
  apply has_ffmpeg_loop_run.
Qed.

(** C6.  [has_ffmpeg] always returns, leaves the world as it found it,
    and answers [true] exactly when [shutil.which("ffmpeg")] resolves the
    executable on the search path or one of the two fixed installation
    paths exists. *)
Theorem has_ffmpeg_iff_resolvable w :
  exists b : bool,
    has_ffmpeg env w = (Ret b, w) /\
    (b = true <->
       (exists p, shutil_which env "ffmpeg" (fs w) = Some p /\ p ≠ "") \/
       (exists p, p ∈ ffmpeg_paths /\ os_path_exists env p (fs w) = true)).
Proof.
  exists (ffmpeg_found env (fs w)). split; [apply has_ffmpeg_run |].
  unfold ffmpeg_found. rewrite orb_true_iff, existsb_exists. split.
  - intros [H | (p & Hin & Hp)].
    + left. destruct (shutil_which env "ffmpeg" (fs w)) as [p|]; [|done].
      exists p. split; [done |]. intros ->. discriminate.
    + right. exists p. by rewrite list_elem_of_In.
  - intros [(p & -> & Hp) | (p & Hin & Hp)].
    + left. unfold truthy. by rewrite eqb_false_of_ne.
    + right. exists p. by rewrite <- list_elem_of_In.
Qed.
End Probe.

(** ** The progress reporter *)

Section Reporter.
Context {FS : Type} (env : Env FS).
Implicit Types (w : World FS) (d : gmap string string).

Lemma getitem_Some d key v w :
  d !! key = Some v -> getitem d key w = (Ret v, w).
Proof. intros H. unfold getitem. by rewrite H. Qed.

Lemma progress_hook_downloading d w :
  d !! "status" = Some "downloading" ->
  progress_hook env d w
  = (Ret tt,
     mkWorld
       (stdout w
        +:+ progress_line (strip (get d "_percent_str" "?%"))
              (strip (get d "_speed_str" "?"))
              (strip (get d "_eta_str" "?")))
       (fs w) (transfers w)).
Proof.
  intros Hs. unfold progress_hook.
  rewrite (bind_Ret _ _ _ _ _ (getitem_Some _ _ _ w Hs)).
  cbn [String.eqb Ascii.eqb Bool.eqb]. unfold print_end.
  by rewrite str_app_nil_r.
Qed.

(** C7.  A downloading event writes a carriage return followed by
    percent, speed and ETA and no line feed after them; a finished event
    writes a line feed and then the completion line with the basename of
    the saved file; an event whose status is none of the three known ones
    changes nothing and returns normally. *)
Theorem progress_hook_renders d w :
  (d !! "status" = Some "downloading" ->
   progress_hook env d w
   = (Ret tt,
      mkWorld
        (stdout w +:+ CR +:+ "  ⬇  "
         +:+ strip (get d "_percent_str" "?%") +:+ "  |  speed: "
         +:+ strip (get d "_speed_str" "?") +:+ "  |  ETA: "
         +:+ strip (get d "_eta_str" "?") +:+ "   ")
        (fs w) (transfers w))) /\
  (forall filename,
     d !! "status" = Some "finished" ->
     d !! "filename" = Some filename ->
     progress_hook env d w
     = (Ret tt,
        mkWorld
          (stdout w +:+ LF +:+ "  ✔  Download complete → "
           +:+ os_path_basename env filename +:+ LF)
          (fs w) (transfers w))) /\
  (forall status,
     d !! "status" = Some status ->
     status ∉ ["downloading"; "finished"; "error"] ->
     progress_hook env d w = (Ret tt, w)).
Proof.
  split; [| split].
  - intros Hs. rewrite (progress_hook_downloading d w Hs).
    reflexivity.
  - intros filename Hs Hf. unfold progress_hook.
    rewrite (bind_Ret _ _ _ _ _ (getitem_Some _ _ _ w Hs)).
    cbn [String.eqb Ascii.eqb Bool.eqb].
    rewrite (bind_Ret _ _ _ _ _ (getitem_Some _ _ _ w Hs)).
    cbn [String.eqb Ascii.eqb Bool.eqb].
    rewrite (bind_Ret _ _ _ _ _ (getitem_Some _ _ _ w Hf)).
    unfold print, print_end. by rewrite ?str_app_assoc.
  - intros status Hs Hn. unfold progress_hook.
    rewrite !not_elem_of_cons in Hn. destruct Hn as (H1 & H2 & H3 & _).
    rewrite (bind_Ret _ _ _ _ _ (getitem_Some _ _ _ w Hs)).
    rewrite (eqb_false_of_ne _ _ H1).
    rewrite (bind_Ret _ _ _ _ _ (getitem_Some _ _ _ w Hs)).
    rewrite (eqb_false_of_ne _ _ H2).
    rewrite (bind_Ret _ _ _ _ _ (getitem_Some _ _ _ w Hs)).
    by rewrite (eqb_false_of_ne _ _ H3).
Qed.

(** C10.  A downloading event still renders the status line when
    fields are missing: a missing percent reads [?%], a missing speed or
    ETA reads [?]; a field that is present is shown stripped. *)
Theorem progress_hook_placeholders d w :
  d !! "status" = Some "downloading" ->
  progress_hook env d w
  = (Ret tt,
     mkWorld
       (stdout w
        +:+ progress_line
              (from_option strip "?%" (d !! "_percent_str"))
              (from_option strip "?" (d !! "_speed_str"))
              (from_option strip "?" (d !! "_eta_str")))
       (fs w) (transfers w)).
Proof.
  intros Hs. rewrite (progress_hook_downloading d w Hs). unfold get.
  by destruct (d !! "_percent_str"), (d !! "_speed_str"), (d !! "_eta_str").
Qed.
End Reporter.

(** ** The request policy *)

(** C1.  With ffmpeg the format expression is the chain of four
    alternatives (mp4 video with m4a audio, mp4 video with any audio, any
    video with any audio, best single stream) and there is exactly one
    post-processor, the converter to mp4; without ffmpeg the chain has the
    two alternatives best single mp4 stream and best single stream, and
    there is no post-processor. *)
Theorem policy_by_capability (ffmpeg_ok : bool) :
  split "/" (fmt ffmpeg_ok)
  = (if ffmpeg_ok
     then [ "bestvideo[ext=mp4]+bestaudio[ext=m4a]";
            "bestvideo[ext=mp4]+bestaudio";
            "bestvideo+bestaudio";
            "best" ]
     else [ "best[ext=mp4]"; "best" ]) /\
  parse_format (fmt ffmpeg_ok)
  = Some
      (if ffmpeg_ok
       then [ [ {| sel_stream := BestVideo; sel_ext := Some "mp4" |};
                {| sel_stream := BestAudio; sel_ext := Some "m4a" |} ];
              [ {| sel_stream := BestVideo; sel_ext := Some "mp4" |};
                {| sel_stream := BestAudio; sel_ext := None |} ];
              [ {| sel_stream := BestVideo; sel_ext := None |};
                {| sel_stream := BestAudio; sel_ext := None |} ];
              [ {| sel_stream := Best; sel_ext := None |} ] ]
       else [ [ {| sel_stream := Best; sel_ext := Some "mp4" |} ];
              [ {| sel_stream := Best; sel_ext := None |} ] ]) /\
  postprocessors ffmpeg_ok
  = (if ffmpeg_ok
     then [ {[ "key" := "FFmpegVideoConvertor"; "preferedformat" := "mp4" ]} ]
     else []).
Proof. destruct ffmpeg_ok; repeat split; vm_compute; reflexivity. Qed.

(** ** The transfer executor *)

Section Executor.
Context {FS : Type} (env : Env FS).
Implicit Types (w : World FS) (url output_dir : string).

Lemma print_tips_run w :
  _print_tips w
  = (Ret tt, mkWorld (stdout w +:+ tips_text) (fs w) (transfers w)).
Proof.
  unfold _print_tips. repeat step. unfold print, print_end.
  cbn [stdout fs transfers]. unfold tips_text, advisory, lines.
  cbn [fold_right]. by rewrite !str_app_assoc, str_app_nil_r.
Qed.

Lemma enable_impersonation_run (opts : gmap string value) w :
  enable_impersonation env opts w
  = (Ret match import_impersonate env with
         | None =>
             <[ "impersonate" :=
                  VTarget {| client := "chrome"; version := "124" |} ]> opts
         | Some _ => opts
         end,
     mkWorld
       (stdout w
        +:+ match import_impersonate env with
            | None =>
                "✔  curl_cffi impersonation enabled (Chrome 124)."
                +:+ LF +:+ LF
            | Some _ => ""
            end)
       (fs w) (transfers w)).
Proof.
  unfold enable_impersonation, try_except_Exception,
    import_ImpersonateTarget.
  destruct (import_impersonate env) as [e|].
  - rewrite bind_raise, str_app_nil_r. by rewrite world_eta.
  - step. step. unfold ret. by rewrite !str_app_assoc.
Qed.

Lemma uploader_of_code (info : option (gmap string pyvalue)) :
  (if truthy_info info then info_get info "uploader" (PyStr "unknown")
   else PyStr "unknown") = uploader_of info.
Proof.
  destruct info as [d|]; [| reflexivity]. cbn.
  case_bool_decide as Hd; [| reflexivity]. by rewrite Hd.
Qed.

Lemma leave_with_transfers {A} (res : result A) w :
  transfers (snd (leave_with env (res, w))) = transfers w.
Proof.
  unfold leave_with.
  by destruct (YoutubeDL_exit env (stdout w, fs w)) as [x [out files]].
Qed.

(** The body of the [with] block, from the answer of [extract_info]. *)
Lemma with_body_run url output_dir (opts : gmap string value) w r out_e files' :
  extract_info env url opts (stdout w, fs w) = (r, (out_e, files')) ->
  with_body env url output_dir opts w
  = match r with
    | inr info =>
        match uploader_of info with
        | PyStr uploader =>
            (Ret true,
             mkWorld
               (out_e +:+ LF +:+ "✅  Video saved to: "
                +:+ os_path_abspath env
                      (os_path_join env [output_dir; uploader])
                +:+ LF)
               files' (transfers w))
        | v =>
            (Raise (Exc (TypeError
                           ("expected str, bytes or os.PathLike object, not "
                            +:+ type_name v))),
             mkWorld out_e files' (transfers w))
        end
    | inl (Exc (DownloadError msg)) =>
        (Ret false,
         mkWorld
           (out_e +:+ LF +:+ "❌  Download failed: " +:+ msg +:+ LF
            +:+ tips_text)
           files' (transfers w))
    | inl e => (Raise e, mkWorld out_e files' (transfers w))
    end.
Proof.
  intros Hrun.
  unfold with_body, try_except_DownloadError, bind at 1, ydl_extract_info.
  rewrite Hrun. destruct r as [e | info].
  - destruct e as [[msg| | | | | |]|]; try reflexivity.
    cbn [str_exc]. step. rewrite (bind_Ret _ _ _ _ _ (print_tips_run _)).
    cbn [stdout fs transfers]. unfold ret. by rewrite !str_app_assoc.
  - rewrite uploader_of_code.
    destruct (uploader_of info) as [|uploader|n]; reflexivity.
Qed.

(** [download_tiktok] up to the [with] statement. *)
Lemma download_tiktok_start url output_dir w files :
  os_makedirs env output_dir (fs w) = (None, files) ->
  download_tiktok env url output_dir w
  = with_YoutubeDL env (engine_opts env output_dir files)
      (with_body env url output_dir (engine_opts env output_dir files))
      (mkWorld (engine_stdout env (stdout w) files) files
         (transfers w ++ [(url, engine_opts env output_dir files)])).
Proof.
  intros Hmk. unfold download_tiktok.
  assert (Hm : makedirs env output_dir w
               = (Ret tt, mkWorld (stdout w) files (transfers w))).
  { unfold makedirs. by rewrite Hmk. }
  rewrite (bind_Ret _ _ _ _ _ Hm).
  rewrite (bind_Ret _ _ _ _ _ (has_ffmpeg_run env _)).
  cbn [stdout fs transfers].
  set (b := ffmpeg_found env files) in *.
  assert (Hp : forall B (k : unit -> M FS B),
    bind (if b
          then print ("✔  ffmpeg detected — output will be remuxed to mp4." +:+ LF)
          else print ("⚠️  ffmpeg not found — downloading best pre-muxed mp4." +:+ LF))
      k (mkWorld (stdout w) files (transfers w))
    = k tt (mkWorld
              (stdout w
               +:+ (if b
                    then "✔  ffmpeg detected — output will be remuxed to mp4." +:+ LF +:+ LF
                    else "⚠️  ffmpeg not found — downloading best pre-muxed mp4." +:+ LF +:+ LF))
              files (transfers w))).
  { intros B k. destruct b; rewrite bind_print; cbn [stdout fs transfers];
      by rewrite !str_app_assoc. }
  rewrite Hp. clear Hp.
  rewrite (bind_Ret _ _ _ _ _ (enable_impersonation_run _ _)).
  cbn [stdout fs transfers]. rewrite str_app_assoc. subst b.
  fold (engine_stdout env (stdout w) files).
  change (add_postprocessors _ _) with (engine_opts env output_dir files).
  reflexivity.
Qed.

(** One run of [download_tiktok] once the output directory is there and
    the engine object is built. *)
Lemma download_tiktok_run
    url output_dir w files out0 files0 r out_e files' :
  os_makedirs env output_dir (fs w) = (None, files) ->
  YoutubeDL_init env (engine_opts env output_dir files)
    (engine_stdout env (stdout w) files, files)
  = (None, (out0, files0)) ->
  extract_info env url (engine_opts env output_dir files) (out0, files0)
  = (r, (out_e, files')) ->
  let log := (transfers w ++ [(url, engine_opts env output_dir files)])%list in
  download_tiktok env url output_dir w
  = leave_with env
      match r with
      | inr info =>
          match uploader_of info with
          | PyStr uploader =>
              (Ret true,
               mkWorld
                 (out_e +:+ LF +:+ "✅  Video saved to: "
                  +:+ os_path_abspath env
                        (os_path_join env [output_dir; uploader])
                  +:+ LF)
                 files' log)
          | v =>
              (Raise (Exc (TypeError
                             ("expected str, bytes or os.PathLike object, not "
                              +:+ type_name v))),
               mkWorld out_e files' log)
          end
      | inl (Exc (DownloadError msg)) =>
          (Ret false,
           mkWorld
             (out_e +:+ LF +:+ "❌  Download failed: " +:+ msg +:+ LF
              +:+ tips_text)
             files' log)
      | inl e => (Raise e, mkWorld out_e files' log)
      end.
Proof.
  intros Hmk Hinit Hrun log.
  rewrite (download_tiktok_start url output_dir w files Hmk).
  unfold with_YoutubeDL. cbn [stdout fs transfers]. rewrite Hinit.
  cbn beta iota zeta. subst log.
  by rewrite (with_body_run url output_dir (engine_opts env output_dir files)
                (mkWorld out0 files0
                   (transfers w ++ [(url, engine_opts env output_dir files)]))
                r out_e files' Hrun).
Qed.

(** When building the engine object raises, the exception leaves
    [download_tiktok]: line 137 is outside the [try] of line 138. *)
Lemma download_tiktok_init_raises url output_dir w files e out0 files0 :
  os_makedirs env output_dir (fs w) = (None, files) ->
  YoutubeDL_init env (engine_opts env output_dir files)
    (engine_stdout env (stdout w) files, files)
  = (Some e, (out0, files0)) ->
  download_tiktok env url output_dir w
  = (Raise e,
     mkWorld out0 files0
       (transfers w ++ [(url, engine_opts env output_dir files)])).
Proof.
  intros Hmk Hinit.
  rewrite (download_tiktok_start url output_dir w files Hmk).
  unfold with_YoutubeDL. cbn [stdout fs transfers]. by rewrite Hinit.
Qed.
End Executor.

Section Outcomes.
Context {FS : Type} (env : Env FS).
Implicit Types (w : World FS) (url output_dir : string).

(** C3.  When the engine raises [DownloadError], [download_tiktok]
    prints after the engine's output the failure line, the heading and the
    six hints of the advisory and leaves the [with] block with [False]:
    that is what it returns, with no exception, when [__exit__] raises
    none.  When the engine raises anything else, the same exception
    leaves the [with] block and, when [__exit__] raises none,
    [download_tiktok]. *)
Theorem download_error_is_reported
    url output_dir w files out0 files0 e out_e files' :
  os_makedirs env output_dir (fs w) = (None, files) ->
  YoutubeDL_init env (engine_opts env output_dir files)
    (engine_stdout env (stdout w) files, files)
  = (None, (out0, files0)) ->
  extract_info env url (engine_opts env output_dir files) (out0, files0)
  = (inl e, (out_e, files')) ->
  let log := (transfers w ++ [(url, engine_opts env output_dir files)])%list in
  length advisory = 6 /\
  (forall msg,
     e = Exc (DownloadError msg) ->
     let printed :=
       out_e +:+ LF +:+ "❌  Download failed: " +:+ msg +:+ LF
       +:+ LF +:+ "💡  Troubleshooting tips:" +:+ LF
       +:+ lines advisory in
     download_tiktok env url output_dir w
     = leave_with env (Ret false, mkWorld printed files' log) /\
     (fst (YoutubeDL_exit env (printed, files')) = None ->
      fst (download_tiktok env url output_dir w) = Ret false)) /\
  ((forall msg, e ≠ Exc (DownloadError msg)) ->
   download_tiktok env url output_dir w
   = leave_with env (Raise e, mkWorld out_e files' log) /\
   (fst (YoutubeDL_exit env (out_e, files')) = None ->
    fst (download_tiktok env url output_dir w) = Raise e)).
Proof.
  intros Hmk Hinit Hrun log. split; [reflexivity |].
  pose proof (download_tiktok_run env url output_dir w files _ _ _ _ _
                Hmk Hinit Hrun) as Hd.
  cbv zeta in Hd. fold log in Hd. split.
  - intros msg -> printed. split; [exact Hd |].
    intros Hexit. rewrite Hd. unfold leave_with. cbn [stdout fs].
    change (YoutubeDL_exit env (_, files'))
      with (YoutubeDL_exit env (printed, files')).
    destruct (YoutubeDL_exit env (printed, files')) as [x [out files1]].
    cbn in Hexit. by subst x.
  - intros Hne.
    assert (He : download_tiktok env url output_dir w
                 = leave_with env (Raise e, mkWorld out_e files' log)).
    { rewrite Hd. destruct e as [[msg| | | | | |]|]; try reflexivity.
      by destruct (Hne msg). }
    split; [exact He |].
    intros Hexit. rewrite He. unfold leave_with. cbn [stdout fs].
    destruct (YoutubeDL_exit env (out_e, files')) as [x [out files1]].
    cbn in Hexit. by subst x.
Qed.

(** C5.  The claim fails where the engine returns the uploader entry
    with the value [None]: the default of [info.get] is not used, line 141
    raises [TypeError] and [download_tiktok] does not return [True]. *)
Theorem uploader_none_raises_TypeError
    url output_dir w files out0 files0 (d : gmap string pyvalue)
    out_e files' :
  os_makedirs env output_dir (fs w) = (None, files) ->
  YoutubeDL_init env (engine_opts env output_dir files)
    (engine_stdout env (stdout w) files, files)
  = (None, (out0, files0)) ->
  extract_info env url (engine_opts env output_dir files) (out0, files0)
  = (inr (Some d), (out_e, files')) ->
  d !! "uploader" = Some PyNone ->
  download_tiktok env url output_dir w
  = leave_with env
      (Raise (Exc (TypeError
                     "expected str, bytes or os.PathLike object, not NoneType")),
       mkWorld out_e files'
         (transfers w ++ [(url, engine_opts env output_dir files)])) /\
  fst (download_tiktok env url output_dir w) ≠ Ret true.
Proof.
  intros Hmk Hinit Hrun Hu.
  pose proof (download_tiktok_run env url output_dir w files _ _ _ _ _
                Hmk Hinit Hrun) as Hd.
  assert (Hup : uploader_of (Some d) = PyNone).
  { unfold uploader_of. by rewrite Hu. }
  cbv beta iota zeta in Hd. rewrite Hup in Hd. cbv beta iota in Hd.
  split; [exact Hd |].
  rewrite Hd. unfold leave_with. cbn [stdout fs].
  destruct (YoutubeDL_exit env (out_e, files')) as [[x|] [out files1]];
    cbn; intros H; discriminate H.
Qed.

(** X26.  When the engine succeeds and the uploader entry is a string
    or is missing, the body of the [with] block ends with [True] after
    printing [abspath(join(output_dir, uploader))], the uploader being
    the entry, or [unknown] when the entry or the whole result is
    missing. *)
Theorem download_success_reports_directory
    url output_dir w files out0 files0 info out_e files' :
  os_makedirs env output_dir (fs w) = (None, files) ->
  YoutubeDL_init env (engine_opts env output_dir files)
    (engine_stdout env (stdout w) files, files)
  = (None, (out0, files0)) ->
  extract_info env url (engine_opts env output_dir files) (out0, files0)
  = (inr info, (out_e, files')) ->
  (forall d v, info = Some d -> d !! "uploader" = Some v ->
               exists s, v = PyStr s) ->
  let uploader :=
    match info with
    | Some d =>
        match d !! "uploader" with
        | Some (PyStr s) => s
        | _ => "unknown"
        end
    | None => "unknown"
    end in
  download_tiktok env url output_dir w
  = leave_with env
      (Ret true,
       mkWorld
         (out_e +:+ LF +:+ "✅  Video saved to: "
          +:+ os_path_abspath env (os_path_join env [output_dir; uploader])
          +:+ LF)
         files'
         (transfers w ++ [(url, engine_opts env output_dir files)])).
Proof.
  intros Hmk Hinit Hrun Hstr uploader.
  rewrite (download_tiktok_run env url output_dir w files _ _ _ _ _
             Hmk Hinit Hrun).
  subst uploader. destruct info as [d|]; [| reflexivity].
  unfold uploader_of. destruct (d !! "uploader") as [v|] eqn:Hv;
    [| reflexivity].
  destruct (Hstr d v eq_refl Hv) as [s ->]. reflexivity.
Qed.

Lemma download_tiktok_log url output_dir w files :
  os_makedirs env output_dir (fs w) = (None, files) ->
  transfers (snd (download_tiktok env url output_dir w))
  = (transfers w ++ [(url, engine_opts env output_dir files)])%list.
Proof.
  intros Hmk.
  destruct (YoutubeDL_init env (engine_opts env output_dir files)
              (engine_stdout env (stdout w) files, files))
    as [[e|] [out0 files0]] eqn:Hinit.
  { by rewrite (download_tiktok_init_raises env url output_dir w files _ _ _
                  Hmk Hinit). }
  destruct (extract_info env url (engine_opts env output_dir files)
              (out0, files0))
    as [r [out_e files']] eqn:Hrun.
  rewrite (download_tiktok_run env url output_dir w files _ _ _ _ _
             Hmk Hinit Hrun).
  destruct r as [[[]|]|info];
    [..| destruct (uploader_of info)]; apply leave_with_transfers.
Qed.

Lemma engine_opts_postprocessors output_dir files :
  engine_opts env output_dir files !! "postprocessors"
  = if ffmpeg_found env files
    then Some (VDictList (postprocessors true))
    else None.
Proof.
  unfold engine_opts.
  destruct (ffmpeg_found env files), (import_impersonate env); reflexivity.
Qed.

Lemma engine_opts_impersonate output_dir files :
  engine_opts env output_dir files !! "impersonate"
  = match import_impersonate env with
    | None => Some (VTarget {| client := "chrome"; version := "124" |})
    | Some _ => None
    end.
Proof.
  unfold engine_opts.
  destruct (ffmpeg_found env files), (import_impersonate env); reflexivity.
Qed.

(** C4.  The post-processor list is non-empty only when ffmpeg was
    found, and the options handed to the engine carry the
    [postprocessors] entry exactly when the list is non-empty. *)
Theorem postprocessors_only_with_remux url output_dir w files :
  os_makedirs env output_dir (fs w) = (None, files) ->
  let ffmpeg_ok := ffmpeg_found env files in
  exists opts,
    transfers (snd (download_tiktok env url output_dir w))
    = (transfers w ++ [(url, opts)])%list /\
    (forall b, postprocessors b ≠ [] -> b = true) /\
    (forall v,
       opts !! "postprocessors" = Some v ->
       v = VDictList (postprocessors ffmpeg_ok) /\
       postprocessors ffmpeg_ok ≠ [] /\ ffmpeg_ok = true) /\
    (postprocessors ffmpeg_ok ≠ [] ->
     opts !! "postprocessors" = Some (VDictList (postprocessors ffmpeg_ok))).
Proof.
  intros Hmk ffmpeg_ok. exists (engine_opts env output_dir files).
  split; [by apply download_tiktok_log |].
  split; [by intros [] |].
  rewrite engine_opts_postprocessors. fold ffmpeg_ok.
  destruct ffmpeg_ok; split.
  - intros v [= <-]. done.
  - done.
  - done.
  - intros H. by destruct H.
Qed.

(** C8.  The claim fails where the import succeeds but the engine has
    no impersonation target: the options carry the [impersonate] entry,
    building the engine object on line 137 raises, and as the line is
    outside every [try] the exception leaves [download_tiktok]; nothing
    is downloaded. *)
Theorem unavailable_impersonation_aborts
    url output_dir w files e out0 files0 :
  import_impersonate env = None ->
  os_makedirs env output_dir (fs w) = (None, files) ->
  YoutubeDL_init env (engine_opts env output_dir files)
    (engine_stdout env (stdout w) files, files)
  = (Some e, (out0, files0)) ->
  engine_opts env output_dir files !! "impersonate"
  = Some (VTarget {| client := "chrome"; version := "124" |}) /\
  download_tiktok env url output_dir w
  = (Raise e,
     mkWorld out0 files0
       (transfers w ++ [(url, engine_opts env output_dir files)])).
Proof.
  intros Himp Hmk Hinit. split.
  - by rewrite engine_opts_impersonate, Himp.
  - by apply download_tiktok_init_raises.
Qed.

(** X27.  When the import in the [try] block raises an [Exception],
    the attempt returns normally with the options and the world
    untouched, and the options handed to the engine have no
    [impersonate] entry. *)
Theorem impersonation_failure_is_absorbed url output_dir w files e :
  import_impersonate env = Some e ->
  os_makedirs env output_dir (fs w) = (None, files) ->
  (forall opts w0, enable_impersonation env opts w0 = (Ret opts, w0)) /\
  engine_opts env output_dir files !! "impersonate" = None /\
  transfers (snd (download_tiktok env url output_dir w))
  = (transfers w ++ [(url, engine_opts env output_dir files)])%list.
Proof.
  intros Himp Hmk. repeat split.
  - intros opts w0. rewrite enable_impersonation_run, Himp.
    by rewrite str_app_nil_r, world_eta.
  - by rewrite engine_opts_impersonate, Himp.
  - by apply download_tiktok_log.
Qed.
End Outcomes.

(** ** The entry point *)

Section Entry.
Context {FS : Type} (env : Env FS).
Implicit Types (w : World FS) (raw url : string).

Lemma startswith_truthy url p :
  p ≠ "" -> startswith url p = true -> truthy url = true.
Proof. intros Hp H. destruct p; [done |]. by destruct url. Qed.

(** [main] up to the call of [download_tiktok]. *)
Lemma main_run w raw :
  raw_url env = Some raw ->
  let url := strip raw in
  let w1 := mkWorld (stdout w +:+ banner env) (fs w) (transfers w) in
  main env w
  = if negb (truthy url) then
      (Raise (SystemExit 1),
       mkWorld (stdout w1 +:+ "❌  No URL provided. Exiting." +:+ LF)
         (fs w) (transfers w))
    else if negb (startswith url "http") then
      (Raise (SystemExit 1),
       mkWorld
         (stdout w1 +:+ "❌  Invalid URL — must start with 'https://'" +:+ LF)
         (fs w) (transfers w))
    else
      match
        download_tiktok env url "tiktok_downloads"
          (mkWorld (stdout w1 +:+ LF) (fs w) (transfers w))
      with
      | (Ret _, w') => (Ret tt, w')
      | (Raise e, w') => (Raise e, w')
      end.
Proof.
  intros Hraw url w1. unfold main. do 3 step.
  assert (Hurl : forall B (k : string -> M FS B),
    bind (if Nat.ltb 1 (length (sys_argv env))
          then ret (strip (nth 1 (sys_argv env) ""))
          else
            print (LF +:+ "Paste the full TikTok video URL below.");;;
            print ("Example: https://www.tiktok.com/@username/video/123..." +:+ LF);;;
            line <- input env "🔗  Video URL: ";;
            ret (strip line)) k
      (mkWorld
         (((stdout w +:+ str_mul "=" 56 +:+ LF)
           +:+ "        🎵  TikTok Video Downloader by URL  🎵" +:+ LF)
          +:+ str_mul "=" 56 +:+ LF)
         (fs w) (transfers w))
    = k url w1).
  { intros B k. subst w1. unfold banner, raw_url in *.
    destruct (Nat.ltb 1 (length (sys_argv env))).
    - injection Hraw as Hraw. rewrite bind_ret, Hraw. fold url.
      unfold lines. cbn [fold_right].
      by rewrite !str_app_assoc, !str_app_nil_r.
    - unfold input. do 7 step. rewrite Hraw, !bind_ret. fold url.
      unfold lines. cbn [fold_right].
      by rewrite !str_app_assoc, !str_app_nil_r. }
  rewrite Hurl. clear Hurl.
  destruct (truthy url); cbn [negb when].
  - step. destruct (startswith url "http"); cbn [negb when].
    + step. step. unfold bind.
      rewrite ?str_app_assoc, ?str_app_nil_r.
      by destruct (download_tiktok _ _ _ _) as [[b|e] w'].
    + unfold sys_exit. repeat step. by rewrite ?str_app_assoc.
  - unfold sys_exit. repeat step. by rewrite ?str_app_assoc.
Qed.

(** C2.  When the URL is empty after [strip()] or does not start with
    [http], [main] leaves with [sys.exit(1)]: the process status is 1,
    the file system is as before and no transfer was handed to the
    engine. *)
Theorem invalid_url_exits_1 w raw :
  raw_url env = Some raw ->
  strip raw = "" \/ startswith (strip raw) "http" = false ->
  exists w',
    main env w = (Raise (SystemExit 1), w') /\
    exit_code env w = 1%Z /\
    fs w' = fs w /\
    transfers w' = transfers w.
Proof.
  intros Hraw Hbad. unfold exit_code.
  rewrite (main_run w raw Hraw). cbv zeta.
  destruct (truthy (strip raw)) eqn:Ht; cbn [negb].
  - destruct Hbad as [He | Hs].
    + apply truthy_false_iff in He. congruence.
    + rewrite Hs. cbn [negb]. eexists. by repeat split.
  - eexists. by repeat split.
Qed.

(** C9.  When the URL passes validation and [download_tiktok] returns,
    with [True] or with [False], [main] returns normally in the world
    the download left and the process status is 0. *)
Theorem valid_url_exits_0 w raw (b : bool) w' :
  raw_url env = Some raw ->
  startswith (strip raw) "http" = true ->
  download_tiktok env (strip raw) "tiktok_downloads"
    (mkWorld (stdout w +:+ banner env +:+ LF) (fs w) (transfers w))
  = (Ret b, w') ->
  main env w = (Ret tt, w') /\ exit_code env w = 0%Z.
Proof.
  intros Hraw Hs Hd. unfold exit_code.
  rewrite (main_run w raw Hraw). cbv zeta. cbn [stdout].
  rewrite (startswith_truthy _ "http" ltac:(done) Hs), Hs. cbn [negb].
  rewrite str_app_assoc, Hd. done.
Qed.
End Entry.

(** ** The three runs, checked against the theorems *)

Lemma invalid_url_exits_1_witness :
  raw_url env_invalid = Some "not-a-url" /\
  exists w',
    main env_invalid empty_world = (Raise (SystemExit 1), w') /\
    exit_code env_invalid empty_world = 1%Z /\
    fs w' = [] /\ transfers w' = [].
Proof.
  split; [reflexivity |].
  apply (invalid_url_exits_1 env_invalid empty_world "not-a-url");
    [reflexivity | right; reflexivity].
Defined.

Lemma download_error_is_reported_witness :
  download_tiktok env_failure tiktok_url "tiktok_downloads" empty_world
  = (Ret false,
     mkWorld
       ("✔  ffmpeg detected — output will be remuxed to mp4." +:+ LF +:+ LF
        +:+ "[tiktok] " +:+ tiktok_url +:+ LF +:+ LF
        +:+ "❌  Download failed: ERROR: Unable to extract webpage video data"
        +:+ LF +:+ LF +:+ "💡  Troubleshooting tips:" +:+ LF
        +:+ lines advisory)
       ["tiktok_downloads"]
       [(tiktok_url, engine_opts env_failure "tiktok_downloads" ["tiktok_downloads"])]).
Proof.
  pose proof (download_error_is_reported env_failure tiktok_url
                "tiktok_downloads" empty_world ["tiktok_downloads"]
                _ _ _ _ _ eq_refl eq_refl eq_refl) as (_ & H & _).
  exact (proj1 (H _ eq_refl)).
Defined.

Lemma download_success_reports_directory_witness :
  download_tiktok env_success tiktok_url "tiktok_downloads" empty_world
  = (Ret true,
     mkWorld
       ("⚠️  ffmpeg not found — downloading best pre-muxed mp4." +:+ LF +:+ LF
        +:+ "✔  curl_cffi impersonation enabled (Chrome 124)." +:+ LF +:+ LF
        +:+ "[tiktok] " +:+ tiktok_url +:+ LF +:+ LF
        +:+ "✅  Video saved to: /home/user/tiktok_downloads/user" +:+ LF)
       ["tiktok_downloads"]
       [(tiktok_url, engine_opts env_success "tiktok_downloads" ["tiktok_downloads"])]).
Proof.
  rewrite (download_success_reports_directory env_success tiktok_url
             "tiktok_downloads" empty_world ["tiktok_downloads"]
             _ _ _ _ _ eq_refl eq_refl eq_refl); [reflexivity |].
  intros d v [= <-] Hv. vm_compute in Hv. injection Hv as <-. by eexists.
Defined.

Lemma postprocessors_only_with_remux_witness :
  exists opts,
    transfers
      (snd (download_tiktok env_failure tiktok_url "tiktok_downloads" empty_world))
    = [(tiktok_url, opts)] /\
    opts !! "postprocessors" = Some (VDictList (postprocessors true)).
Proof.
  destruct (postprocessors_only_with_remux env_failure tiktok_url
              "tiktok_downloads" empty_world ["tiktok_downloads"] eq_refl)
    as (opts & Hlog & _ & _ & Hpp).
  exists opts. split; [exact Hlog |]. apply Hpp. discriminate.
Defined.

Lemma impersonation_failure_is_absorbed_witness :
  engine_opts env_failure "tiktok_downloads" ["tiktok_downloads"] !! "impersonate"
  = None /\
  transfers
    (snd (download_tiktok env_failure tiktok_url "tiktok_downloads" empty_world))
  = [(tiktok_url, engine_opts env_failure "tiktok_downloads" ["tiktok_downloads"])].
Proof.
  destruct (impersonation_failure_is_absorbed env_failure tiktok_url
              "tiktok_downloads" empty_world ["tiktok_downloads"]
              _ eq_refl eq_refl)
    as (_ & Hopts & Hlog).
  split; [exact Hopts | exact Hlog].
Defined.

Lemma uploader_none_raises_TypeError_witness :
  download_tiktok env_uploader_none tiktok_url "tiktok_downloads" empty_world
  = (Raise (Exc (TypeError
                   "expected str, bytes or os.PathLike object, not NoneType")),
     mkWorld
       ("⚠️  ffmpeg not found — downloading best pre-muxed mp4." +:+ LF +:+ LF
        +:+ "✔  curl_cffi impersonation enabled (Chrome 124)." +:+ LF +:+ LF
        +:+ "[tiktok] " +:+ tiktok_url +:+ LF)
       ["tiktok_downloads"]
       [(tiktok_url,
         engine_opts env_uploader_none "tiktok_downloads" ["tiktok_downloads"])]) /\
  exit_code env_uploader_none empty_world = 1%Z.
Proof.
  split; [| reflexivity].
  exact (proj1 (uploader_none_raises_TypeError env_uploader_none tiktok_url
                  "tiktok_downloads" empty_world ["tiktok_downloads"]
                  _ _ _ _ _ eq_refl eq_refl eq_refl eq_refl)).
Defined.

Lemma unavailable_impersonation_aborts_witness :
  download_tiktok env_no_target tiktok_url "tiktok_downloads" empty_world
  = (Raise (Exc (OtherException "YoutubeDLError"
                   "Impersonate target chrome-124 is not available")),
     mkWorld
       ("⚠️  ffmpeg not found — downloading best pre-muxed mp4." +:+ LF +:+ LF
        +:+ "✔  curl_cffi impersonation enabled (Chrome 124)." +:+ LF +:+ LF)
       ["tiktok_downloads"]
       [(tiktok_url,
         engine_opts env_no_target "tiktok_downloads" ["tiktok_downloads"])]) /\
  fst (YoutubeDL_init env_no_target
         (delete "impersonate"
            (engine_opts env_no_target "tiktok_downloads" ["tiktok_downloads"]))
         ("", ["tiktok_downloads"]))
  = None /\
  exit_code env_no_target empty_world = 1%Z.
Proof.
  split; [| split; reflexivity].
  exact (proj2 (unavailable_impersonation_aborts env_no_target tiktok_url
                  "tiktok_downloads" empty_world ["tiktok_downloads"]
                  _ _ _ eq_refl eq_refl eq_refl)).
Defined.

Lemma progress_hook_renders_witness :
  progress_hook env_success event_downloading empty_world
  = (Ret tt,
     mkWorld (CR +:+ "  ⬇  42.0%  |  speed: 1.2MiB/s  |  ETA: 00:03   ") [] []) /\
  progress_hook env_success event_finished empty_world
  = (Ret tt,
     mkWorld (LF +:+ "  ✔  Download complete → clip.mp4" +:+ LF) [] []) /\
  progress_hook env_success event_paused empty_world = (Ret tt, empty_world).
Proof.
  split; [| split].
  - exact (proj1 (progress_hook_renders env_success event_downloading
                    empty_world) eq_refl).
  - exact (proj1 (proj2 (progress_hook_renders env_success event_finished
                           empty_world))
             "tiktok_downloads/user/clip.mp4" eq_refl eq_refl).
  - apply (proj2 (proj2 (progress_hook_renders env_success event_paused
                           empty_world)) "paused" eq_refl).
    rewrite !not_elem_of_cons. repeat split; try discriminate.
    apply not_elem_of_nil.
Defined.

Lemma progress_hook_placeholders_witness :
  progress_hook env_success event_bare empty_world
  = (Ret tt, mkWorld (CR +:+ "  ⬇  ?%  |  speed: ?  |  ETA: ?   ") [] []).
Proof.
  exact (progress_hook_placeholders env_success event_bare empty_world eq_refl).
Defined.

Lemma valid_url_exits_0_witness :
  fst (download_tiktok env_failure tiktok_url "tiktok_downloads"
         (mkWorld (banner env_failure +:+ LF) [] []))
  = Ret false /\
  exit_code env_failure empty_world = 0%Z.
Proof.
  split; [reflexivity |].
  eapply (valid_url_exits_0 env_failure empty_world tiktok_url false);
    [reflexivity | reflexivity | vm_compute; reflexivity].
Defined.

(** ** Edge cases *)

(** The scheme test looks at the four characters [http] only: an argument
    such as [httpx] passes validation and the download is attempted. *)
Example bare_http_prefix_is_accepted :
  let env := posix_env ["main.py"; "httpx"] None None None (inr None) in
  startswith "httpx" "http" = true /\
  exit_code env empty_world = 0%Z /\
  fs (snd (main env empty_world)) = ["tiktok_downloads"].
Proof. repeat split; vm_compute; reflexivity. Qed.

(** An event without a [status] entry is not a no-op: [d["status"]]
    raises [KeyError]. *)
Example event_without_status_raises :
  progress_hook env_success ∅ empty_world
  = (Raise (Exc (KeyError "status")), empty_world).
Proof. reflexivity. Qed.

(** An engine failure that is not a [DownloadError] passes through
    [download_tiktok] and [main]; the interpreter then leaves with
    status 1. *)
Example unexpected_engine_error_exits_1 :
  let env :=
    posix_env ["main.py"; tiktok_url] None None None
      (inl (Exc (OtherException "TypeError" "unsupported operand"))) in
  fst (main env empty_world)
  = Raise (Exc (OtherException "TypeError" "unsupported operand")) /\
  exit_code env empty_world = 1%Z.
Proof. split; vm_compute; reflexivity. Qed.

(** * Further properties *)

(** ** The progress reporter on every event *)

Section ReporterCases.
Context {FS : Type} (env : Env FS).
Implicit Types (w : World FS) (d : gmap string string).

(** The hook in closed form. *)
Lemma progress_hook_cases d w :
  progress_hook env d w
  = match d !! "status" with
    | None => (Raise (Exc (KeyError "status")), w)
    | Some status =>
        if String.eqb status "downloading" then
          (Ret tt, mkWorld (stdout w +:+ status_line d) (fs w) (transfers w))
        else if String.eqb status "finished" then
          match d !! "filename" with
          | None => (Raise (Exc (KeyError "filename")), w)
          | Some filename =>
              (Ret tt,
               mkWorld
                 (stdout w +:+ LF +:+ "  ✔  Download complete → "
                  +:+ os_path_basename env filename +:+ LF)
                 (fs w) (transfers w))
          end
        else if String.eqb status "error" then
          (Ret tt,
           mkWorld
             (stdout w +:+ LF +:+ "  ❌  An error occurred during download."
              +:+ LF)
             (fs w) (transfers w))
        else (Ret tt, w)
    end.
Proof.
  unfold progress_hook, getitem, bind.
  destruct (d !! "status") as [status|]; [| reflexivity].
  unfold ret at 1. cbn beta iota.
  destruct (String.eqb status "downloading").
  { unfold print_end, status_line. by rewrite str_app_nil_r. }
  unfold ret at 1. cbn beta iota.
  destruct (String.eqb status "finished").
  { destruct (d !! "filename"); [| reflexivity].
    unfold ret, print, print_end. by rewrite ?str_app_assoc. }
  unfold ret at 1. cbn beta iota.
  destruct (String.eqb status "error"); [| reflexivity].
  unfold print, print_end. by rewrite ?str_app_assoc.
Qed.

(** X1.  An event with status [error] writes a line feed and the error
    marker line, and nothing else changes. *)
Theorem progress_hook_error d w :
  d !! "status" = Some "error" ->
  progress_hook env d w
  = (Ret tt,
     mkWorld
       (stdout w +:+ LF +:+ "  ❌  An error occurred during download." +:+ LF)
       (fs w) (transfers w)).
Proof. intros Hs. by rewrite progress_hook_cases, Hs. Qed.

(** X2.  An event without a [status] entry makes the hook raise
    [KeyError('status')] before anything is printed. *)
Theorem progress_hook_missing_status d w :
  d !! "status" = None ->
  progress_hook env d w = (Raise (Exc (KeyError "status")), w).
Proof. intros Hs. by rewrite progress_hook_cases, Hs. Qed.

(** X3.  A finished event without a [filename] entry makes the hook
    raise [KeyError('filename')] before anything is printed. *)
Theorem progress_hook_finished_missing_filename d w :
  d !! "status" = Some "finished" ->
  d !! "filename" = None ->
  progress_hook env d w = (Raise (Exc (KeyError "filename")), w).
Proof. intros Hs Hf. by rewrite progress_hook_cases, Hs, Hf. Qed.

(** X4.  Whatever the event, the hook only appends to the terminal: the
    file system and the transfer log are untouched, the old output is a
    prefix of the new one, and when the hook raises nothing was printed. *)
Theorem progress_hook_only_prints d w :
  fs (snd (progress_hook env d w)) = fs w /\
  transfers (snd (progress_hook env d w)) = transfers w /\
  (exists out, stdout (snd (progress_hook env d w)) = stdout w +:+ out) /\
  (forall e, fst (progress_hook env d w) = Raise e ->
             snd (progress_hook env d w) = w).
Proof.
  rewrite progress_hook_cases.
  destruct (d !! "status") as [status|].
  2: { repeat split; try done. exists "". by rewrite str_app_nil_r. }
  destruct (String.eqb status "downloading").
  { repeat split; try done. by eexists. }
  destruct (String.eqb status "finished").
  { destruct (d !! "filename").
    - repeat split; try done. by eexists.
    - repeat split; try done. exists "". by rewrite str_app_nil_r. }
  destruct (String.eqb status "error").
  - repeat split; try done. by eexists.
  - repeat split; try done. exists "". by rewrite str_app_nil_r.
Qed.

(** X5.  The hook reads five entries of the event and no other: two
    events that agree on [status], [_percent_str], [_speed_str],
    [_eta_str] and [filename] are reported alike. *)
Theorem progress_hook_reads_five_keys d d' w :
  (forall key,
     key ∈ ["status"; "_percent_str"; "_speed_str"; "_eta_str"; "filename"] ->
     d !! key = d' !! key) ->
  progress_hook env d w = progress_hook env d' w.
Proof.
  intros H. rewrite !progress_hook_cases. unfold status_line, get.
  rewrite <- (H "status"), <- (H "_percent_str"), <- (H "_speed_str"),
    <- (H "_eta_str"), <- (H "filename"); [done | | | | |];
    rewrite !elem_of_cons; tauto.
Qed.

Lemma progress_hook_each_downloading (events : list (gmap string string)) w
    (k : M FS unit) :
  Forall (fun d => d !! "status" = Some "downloading") events ->
  bind (progress_hook_each env events) (fun _ => k) w
  = k (mkWorld (stdout w +:+ status_lines events) (fs w) (transfers w)).
Proof.
  intros Hall. revert w. induction Hall as [|d rest Hd _ IH]; intros w.
  - cbn [progress_hook_each status_lines fold_right].
    by rewrite bind_ret, str_app_nil_r, world_eta.
  - cbn [progress_hook_each status_lines fold_right].
    rewrite bind_assoc.
    assert (Hstep : progress_hook env d w
                    = (Ret tt, mkWorld (stdout w +:+ status_line d)
                                 (fs w) (transfers w))).
    { by rewrite progress_hook_cases, Hd. }
    rewrite (bind_Ret _ _ _ _ _ Hstep), IH. cbn [stdout fs transfers].
    by rewrite str_app_assoc.
Qed.

(** X6.  Downloading events followed by one finished event leave the
    status lines, each begun by a carriage return, then a line feed and
    one completion line with the basename of the file, however many
    downloading events came first. *)
Theorem progress_hook_each_then_finished
    (events : list (gmap string string)) d filename w :
  Forall (fun d => d !! "status" = Some "downloading") events ->
  d !! "status" = Some "finished" ->
  d !! "filename" = Some filename ->
  progress_hook_each env (events ++ [d]) w
  = (Ret tt,
     mkWorld
       (stdout w +:+ status_lines events +:+ LF
        +:+ "  ✔  Download complete → " +:+ os_path_basename env filename
        +:+ LF)
       (fs w) (transfers w)).
Proof.
  intros Hall Hs Hf.
  assert (Happ : forall (l1 l2 : list (gmap string string)) w0,
    progress_hook_each env (l1 ++ l2) w0
    = bind (progress_hook_each env l1)
        (fun _ => progress_hook_each env l2) w0).
  { induction l1 as [|x l1 IH]; intros l2 w0; [reflexivity |].
    cbn [progress_hook_each app]. rewrite bind_assoc.
    destruct (progress_hook env x w0) as [[[]|e] w1] eqn:Hx.
    - rewrite !(bind_Ret _ _ _ _ _ Hx). apply IH.
    - by rewrite !(bind_Raise _ _ _ _ _ Hx). }
  rewrite Happ, (progress_hook_each_downloading events w _ Hall).
  cbn [progress_hook_each]. unfold bind, ret.
  rewrite progress_hook_cases, Hs, Hf. cbn [stdout fs transfers].
  cbn [String.eqb Ascii.eqb Bool.eqb]. by rewrite !str_app_assoc.
Qed.
End ReporterCases.

(** X7.  An exception in the hook ends the sequence: when an event
    without [status] follows downloading events, their status lines are on
    the terminal, [KeyError('status')] is raised and the later events are
    not reported. *)
Theorem progress_hook_each_stops_at_error {FS : Type} (env : Env FS)
    (events rest : list (gmap string string)) (d : gmap string string)
    (w : World FS) :
  Forall (fun d => d !! "status" = Some "downloading") events ->
  d !! "status" = None ->
  progress_hook_each env (events ++ d :: rest) w
  = (Raise (Exc (KeyError "status")),
     mkWorld (stdout w +:+ status_lines events) (fs w) (transfers w)).
Proof.
  intros Hall Hs. revert w. induction Hall as [|x l Hx _ IH]; intros w.
  - cbn [app progress_hook_each status_lines fold_right].
    unfold bind. rewrite progress_hook_cases, Hs.
    by rewrite str_app_nil_r, world_eta.
  - cbn [app progress_hook_each status_lines fold_right].
    unfold bind at 1. rewrite progress_hook_cases, Hx.
    cbn [String.eqb Ascii.eqb Bool.eqb]. rewrite IH.
    cbn [stdout fs transfers]. by rewrite str_app_assoc.
Qed.

(** ** More on the transfer executor *)

Section ExecutorCases.
Context {FS : Type} (env : Env FS).
Implicit Types (w : World FS) (url output_dir : string).

Lemma download_tiktok_makedirs_run url output_dir w e files :
  os_makedirs env output_dir (fs w) = (Some e, files) ->
  download_tiktok env url output_dir w
  = (Raise e, mkWorld (stdout w) files (transfers w)).
Proof.
  intros Hmk. unfold download_tiktok.
  apply bind_Raise. unfold makedirs. by rewrite Hmk.
Qed.

(** X8.  When [os.makedirs] raises, [download_tiktok] raises the same
    exception at once: nothing is printed, the engine is not called, and
    the file system is the one [os.makedirs] left. *)
Theorem download_tiktok_makedirs_fails url output_dir w e files :
  os_makedirs env output_dir (fs w) = (Some e, files) ->
  download_tiktok env url output_dir w
  = (Raise e, mkWorld (stdout w) files (transfers w)).
Proof. apply download_tiktok_makedirs_run. Qed.

(** X9.  Whatever the capabilities, the engine is called once, for the
    URL given, with the output template
    [output_dir/%(uploader)s/%(title)s.%(ext)s], mp4 as merge format,
    overwriting switched off, the engine's own messages left on, the
    progress hook registered and the three browser headers. *)
Theorem download_tiktok_fixed_settings url output_dir w files :
  os_makedirs env output_dir (fs w) = (None, files) ->
  exists opts,
    transfers (snd (download_tiktok env url output_dir w))
    = (transfers w ++ [(url, opts)])%list /\
    opts !! "outtmpl"
    = Some (VStr (os_path_join env
                    [output_dir; "%(uploader)s"; "%(title)s.%(ext)s"])) /\
    opts !! "merge_output_format" = Some (VStr "mp4") /\
    opts !! "nooverwrites" = Some (VBool true) /\
    opts !! "quiet" = Some (VBool false) /\
    opts !! "no_warnings" = Some (VBool false) /\
    opts !! "progress_hooks" = Some (VHooks [Hook_progress_hook]) /\
    opts !! "http_headers"
    = Some (VDict {[ "User-Agent" :=
                       "Mozilla/5.0 (Windows NT 10.0; Win64; x64) AppleWebKit/537.36 (KHTML, like Gecko) Chrome/124.0.0.0 Safari/537.36";
                     "Referer" := "https://www.tiktok.com/";
                     "Accept-Language" := "en-US,en;q=0.9" ]}).
Proof.
  intros Hmk. exists (engine_opts env output_dir files).
  split; [by apply download_tiktok_log |].
  unfold engine_opts.
  destruct (ffmpeg_found env files), (import_impersonate env);
    repeat split; reflexivity.
Qed.

(** X10.  The options handed to the engine have the eight fixed
    entries, [impersonate] exactly when the import succeeded and
    [postprocessors] exactly when ffmpeg was found; no other entry, so no
    cookie source, is ever set. *)
Theorem download_tiktok_option_keys url output_dir w files :
  os_makedirs env output_dir (fs w) = (None, files) ->
  exists opts,
    transfers (snd (download_tiktok env url output_dir w))
    = (transfers w ++ [(url, opts)])%list /\
    dom opts
    = ({[ "outtmpl"; "format"; "merge_output_format"; "nooverwrites";
          "quiet"; "no_warnings"; "progress_hooks"; "http_headers" ]}
       ∪ match import_impersonate env with
         | None => {[ "impersonate" ]}
         | Some _ => ∅
         end
       ∪ (if ffmpeg_found env files then {[ "postprocessors" ]} else ∅)
       : gset string).
Proof.
  intros Hmk. exists (engine_opts env output_dir files).
  split; [by apply download_tiktok_log |].
  unfold engine_opts, add_postprocessors, opts0.
  destruct (ffmpeg_found env files), (import_impersonate env);
    cbn [postprocessors truthy_list];
    rewrite ?dom_insert_L, ?dom_singleton_L; set_solver.
Qed.

(** X11.  When the import succeeds, the attempt adds the target
    Chrome 124 to the options and announces it, and the engine gets the
    options with that entry. *)
Theorem impersonation_enabled url output_dir w files :
  import_impersonate env = None ->
  os_makedirs env output_dir (fs w) = (None, files) ->
  (forall opts w0,
     enable_impersonation env opts w0
     = (Ret (<[ "impersonate" :=
                  VTarget {| client := "chrome"; version := "124" |} ]> opts),
        mkWorld
          (stdout w0 +:+ "✔  curl_cffi impersonation enabled (Chrome 124)."
           +:+ LF +:+ LF)
          (fs w0) (transfers w0))) /\
  exists opts,
    transfers (snd (download_tiktok env url output_dir w))
    = (transfers w ++ [(url, opts)])%list /\
    opts !! "impersonate"
    = Some (VTarget {| client := "chrome"; version := "124" |}).
Proof.
  intros Himp Hmk. split.
  - intros opts w0. by rewrite enable_impersonation_run, Himp.
  - exists (engine_opts env output_dir files).
    split; [by apply download_tiktok_log |].
    by rewrite engine_opts_impersonate, Himp.
Qed.

(** X12.  A [DownloadError] raised inside the [with] block never
    leaves [download_tiktok]: once the directory is there and the engine
    object is built, [download_tiktok] raises [DownloadError] only if
    [__exit__] does. *)
Theorem extract_info_DownloadError_never_escapes
    url output_dir w files out0 files0 msg :
  os_makedirs env output_dir (fs w) = (None, files) ->
  YoutubeDL_init env (engine_opts env output_dir files)
    (engine_stdout env (stdout w) files, files)
  = (None, (out0, files0)) ->
  (forall st, fst (YoutubeDL_exit env st) ≠ Some (Exc (DownloadError msg))) ->
  fst (download_tiktok env url output_dir w) ≠ Raise (Exc (DownloadError msg)).
Proof.
  intros Hmk Hinit Hexit.
  destruct (extract_info env url (engine_opts env output_dir files)
              (out0, files0))
    as [r [out_e files']] eqn:Hrun.
  rewrite (download_tiktok_run env url output_dir w files _ _ _ _ _
             Hmk Hinit Hrun).
  assert (Hleave : forall (res : result bool) w0,
            res ≠ Raise (Exc (DownloadError msg)) ->
            fst (leave_with env (res, w0)) ≠ Raise (Exc (DownloadError msg))).
  { intros res w0 Hres. unfold leave_with.
    pose proof (Hexit (stdout w0, fs w0)) as Hx.
    destruct (YoutubeDL_exit env (stdout w0, fs w0)) as [[x|] [out files1]];
      cbn in *; congruence. }
  destruct r as [[[]|]|info];
    [..| destruct (uploader_of info)]; apply Hleave; discriminate.
Qed.

(** X13.  After [extract_info], [download_tiktok] only appends to the
    terminal and then leaves the [with] block: it writes nothing to the
    file system itself, whether the engine returned, reported a download
    error or raised. *)
Theorem download_tiktok_leaves_engine_files
    url output_dir w files out0 files0 r out_e files' :
  os_makedirs env output_dir (fs w) = (None, files) ->
  YoutubeDL_init env (engine_opts env output_dir files)
    (engine_stdout env (stdout w) files, files)
  = (None, (out0, files0)) ->
  extract_info env url (engine_opts env output_dir files) (out0, files0)
  = (r, (out_e, files')) ->
  exists res own,
    download_tiktok env url output_dir w
    = leave_with env
        (res,
         mkWorld (out_e +:+ own) files'
           (transfers w ++ [(url, engine_opts env output_dir files)])).
Proof.
  intros Hmk Hinit Hrun.
  rewrite (download_tiktok_run env url output_dir w files _ _ _ _ _
             Hmk Hinit Hrun).
  destruct r as [[[]|]|info]; [..| destruct (uploader_of info)];
    try (eexists _, ""; rewrite str_app_nil_r; reflexivity);
    eexists _, _; reflexivity.
Qed.
End ExecutorCases.

(** ** More on the entry point *)

Section EntryCases.
Context {FS : Type} (env : Env FS).
Implicit Types (w : World FS) (raw url : string).

Lemma main_run_eof w :
  raw_url env = None ->
  main env w
  = (Raise (Exc EOFError),
     mkWorld (stdout w +:+ banner env) (fs w) (transfers w)).
Proof.
  intros Hraw. unfold main, raw_url, banner in *.
  destruct (Nat.ltb 1 (length (sys_argv env))); [discriminate |].
  unfold input. repeat step. rewrite Hraw, bind_raise.
  unfold lines. cbn [fold_right].
  by rewrite !str_app_assoc, !str_app_nil_r.
Qed.

(** X14.  Started without a URL argument and with standard input at its
    end, [main] prints the banner and the prompt and then [EOFError]
    leaves it: status 1, nothing written, no transfer. *)
Theorem main_end_of_input w :
  length (sys_argv env) <= 1 ->
  stdin_line env = None ->
  main env w
  = (Raise (Exc EOFError),
     mkWorld (stdout w +:+ banner env) (fs w) (transfers w)) /\
  exit_code env w = 1%Z.
Proof.
  intros Hlen Hin.
  assert (Hraw : raw_url env = None).
  { unfold raw_url. by rewrite (proj2 (Nat.ltb_ge _ _) Hlen). }
  unfold exit_code. by rewrite (main_run_eof w Hraw).
Qed.

(** X15.  A URL whose first character after [strip()] is not a
    lower-case [h] is rejected with status 1; the test is case-sensitive,
    so [HTTPS://...] does not pass. *)
Theorem main_rejects_other_first_letter w raw c rest :
  raw_url env = Some raw ->
  strip raw = String c rest ->
  c ≠ "h"%char ->
  fst (main env w) = Raise (SystemExit 1) /\
  exit_code env w = 1%Z /\
  fs (snd (main env w)) = fs w /\
  transfers (snd (main env w)) = transfers w.
Proof.
  intros Hraw Hs Hc. unfold exit_code.
  rewrite (main_run env w raw Hraw). cbv zeta. rewrite Hs.
  cbn [truthy String.eqb negb startswith].
  by rewrite (proj2 (Ascii.eqb_neq c "h") Hc).
Qed.


(** X17.  Whatever the environment, one run of [main] hands at most one
    transfer to the engine and drops none of the log. *)
Theorem main_at_most_one_transfer w :
  exists new,
    transfers (snd (main env w)) = (transfers w ++ new)%list /\
    length new <= 1.
Proof.
  destruct (raw_url env) as [raw|] eqn:Hraw.
  2: { rewrite (main_run_eof w Hraw). exists []. split; [by rewrite app_nil_r | cbn; lia]. }
  rewrite (main_run env w raw Hraw). cbv zeta.
  destruct (truthy (strip raw)); cbn [negb].
  2: { exists []. split; [by rewrite app_nil_r | cbn; lia]. }
  destruct (startswith (strip raw) "http"); cbn [negb].
  2: { exists []. split; [by rewrite app_nil_r | cbn; lia]. }
  cbn [stdout].
  destruct (os_makedirs env "tiktok_downloads" (fs w)) as [[e|] files] eqn:Hmk.
  - rewrite (download_tiktok_makedirs_run env (strip raw) "tiktok_downloads"
               (mkWorld ((stdout w +:+ banner env) +:+ LF) (fs w)
                  (transfers w)) e files Hmk).
    exists []. split; [by rewrite app_nil_r | cbn; lia].
  - pose proof (download_tiktok_log env (strip raw) "tiktok_downloads"
                  (mkWorld ((stdout w +:+ banner env) +:+ LF) (fs w)
                     (transfers w)) files Hmk) as Hlog.
    cbn [stdout fs transfers] in *.
    exists [(strip raw, engine_opts env "tiktok_downloads" files)].
    split; [| cbn; lia].
    destruct (download_tiktok _ _ _ _) as [[b|e] w']; exact Hlog.
Qed.
End EntryCases.

Lemma download_tiktok_with_cli {FS : Type} (env : Env FS)
    (argv : list string) (line : option string) :
  download_tiktok (with_cli env argv line) = download_tiktok env.
Proof. reflexivity. Qed.

(** X18.  When a URL argument is given, [main] reads nothing else from
    the command line and nothing from standard input: two runs that share
    [sys.argv[1]] behave alike. *)
Theorem main_uses_first_argument_only {FS : Type} (env : Env FS)
    (argv argv' : list string) (line line' : option string) (w : World FS) :
  1 < length argv ->
  1 < length argv' ->
  nth 1 argv "" = nth 1 argv' "" ->
  main (with_cli env argv line) w = main (with_cli env argv' line') w.
Proof.
  intros H1 H2 Hnth. unfold main. rewrite !download_tiktok_with_cli.
  cbn [sys_argv with_cli].
  rewrite (proj2 (Nat.ltb_lt _ _) H1), (proj2 (Nat.ltb_lt _ _) H2), Hnth.
  reflexivity.
Qed.

(** ** The package bootstrap *)

Section BootstrapProps.
Context {FS : Type} (pip : Pip FS) (env : Env FS).
Implicit Types w : World FS.

Lemma import_ok name w :
  py_import pip name (fs w) = None -> import_ pip name w = (Ret tt, w).
Proof. intros H. unfold import_. by rewrite H. Qed.

Lemma import_raises name w e :
  py_import pip name (fs w) = Some e -> import_ pip name w = (Raise e, w).
Proof. intros H. unfold import_. by rewrite H. Qed.

Lemma ensure_packages_present_run w :
  py_import pip "yt_dlp" (fs w) = None ->
  py_import pip "curl_cffi" (fs w) = None ->
  ensure_packages pip w = (Ret tt, w).
Proof.
  intros Hy Hc. unfold ensure_packages, packages.
  cbn [ensure_packages_loop]. unfold bind, try_except_ImportError.
  by rewrite (import_ok _ _ Hy), (import_ok _ _ Hc).
Qed.

(** X19.  When both packages can be imported, [ensure_packages] prints
    nothing, starts no subprocess and changes nothing. *)
Theorem ensure_packages_present w :
  py_import pip "yt_dlp" (fs w) = None ->
  py_import pip "curl_cffi" (fs w) = None ->
  ensure_packages pip w = (Ret tt, w).
Proof. apply ensure_packages_present_run. Qed.

(** X20.  Only [ImportError] starts an installation: any other
    exception of the first import leaves [ensure_packages] at once, with
    nothing printed and nothing installed. *)
Theorem ensure_packages_other_import_error w e :
  py_import pip "yt_dlp" (fs w) = Some e ->
  (forall msg, e ≠ Exc (ImportError msg)) ->
  ensure_packages pip w = (Raise e, w).
Proof.
  intros Hy Hne. unfold ensure_packages, packages.
  cbn [ensure_packages_loop]. unfold bind at 1, try_except_ImportError.
  rewrite (import_raises _ _ _ Hy).
  destruct e as [[| m | | | | |]|]; try reflexivity. by destruct (Hne m).
Qed.

(** X21.  When [yt_dlp] is missing and the [pip] subprocess fails, its
    exception leaves [ensure_packages]: the success line is not printed
    and [curl_cffi] is not looked at. *)
Theorem ensure_packages_install_fails w msg e out files :
  py_import pip "yt_dlp" (fs w) = Some (Exc (ImportError msg)) ->
  check_call pip [sys_executable pip; "-m"; "pip"; "install"; "yt-dlp"; "-q"]
    (stdout w +:+ "📦 Installing yt-dlp ..." +:+ LF, fs w)
  = (Some e, (out, files)) ->
  ensure_packages pip w = (Raise e, mkWorld out files (transfers w)).
Proof.
  intros Hy Hcall. unfold ensure_packages, packages.
  cbn [ensure_packages_loop]. unfold bind at 1, try_except_ImportError.
  rewrite (import_raises _ _ _ Hy). unfold install.
  rewrite bind_print. cbn [stdout fs transfers].
  unfold bind, subprocess_check_call. cbn [stdout fs transfers].
  change ("📦 Installing " +:+ "yt-dlp" +:+ " ...")
    with "📦 Installing yt-dlp ...".
  by rewrite Hcall.
Qed.

(** X22.  When only [curl_cffi] is missing and [pip] succeeds,
    [ensure_packages] prints the installing line before the subprocess
    and the success line after it, and returns without importing the
    package again. *)
Theorem ensure_packages_installs_curl_cffi w msg out files :
  py_import pip "yt_dlp" (fs w) = None ->
  py_import pip "curl_cffi" (fs w) = Some (Exc (ImportError msg)) ->
  check_call pip [sys_executable pip; "-m"; "pip"; "install"; "curl_cffi"; "-q"]
    (stdout w +:+ "📦 Installing curl_cffi ..." +:+ LF, fs w)
  = (None, (out, files)) ->
  ensure_packages pip w
  = (Ret tt,
     mkWorld (out +:+ "✔  curl_cffi installed." +:+ LF +:+ LF)
       files (transfers w)).
Proof.
  intros Hy Hc Hcall. unfold ensure_packages, packages.
  cbn [ensure_packages_loop]. unfold bind at 1, try_except_ImportError.
  rewrite (import_ok _ _ Hy). unfold bind at 1.
  rewrite (import_raises _ _ _ Hc). unfold install.
  rewrite bind_print. cbn [stdout fs transfers].
  unfold bind, subprocess_check_call, print, print_end, ret.
  cbn [stdout fs transfers].
  change ("📦 Installing " +:+ "curl_cffi" +:+ " ...")
    with "📦 Installing curl_cffi ...".
  rewrite Hcall. reflexivity.
Qed.

(** X23.  With both packages importable, running the module as a
    script is running [main]; loading it as a module does nothing. *)
Theorem module_runs_main (name_is_main : bool) w :
  py_import pip "yt_dlp" (fs w) = None ->
  py_import pip "curl_cffi" (fs w) = None ->
  module pip env name_is_main w
  = if name_is_main then main env w else (Ret tt, w).
Proof.
  intros Hy Hc. unfold module.
  rewrite (bind_Ret _ _ _ _ _ (ensure_packages_present_run w Hy Hc)).
  rewrite (bind_Ret _ _ _ _ _ (import_ok _ _ Hy)).
  by destruct name_is_main.
Qed.

(** X24.  When the bootstrap returns but [yt_dlp] still cannot be
    imported, the import of line 38 raises and [main] never starts. *)
Theorem module_import_fails_after_bootstrap (name_is_main : bool) w w' e :
  ensure_packages pip w = (Ret tt, w') ->
  py_import pip "yt_dlp" (fs w') = Some e ->
  module pip env name_is_main w = (Raise e, w').
Proof.
  intros He Hy. unfold module.
  rewrite (bind_Ret _ _ _ _ _ He).
  by rewrite (bind_Raise _ _ _ _ _ (import_raises _ _ _ Hy)).
Qed.
End BootstrapProps.

(** ** Blank input *)

Lemma drop_space_blank (back : bool) (s : string) :
  Forall (fun a => is_space1 a = true) (list_ascii_of_string s) ->
  drop_space back s = "".
Proof.
  induction s as [|a s IH]; [reflexivity |].
  cbn [list_ascii_of_string]. intros H. inversion H as [|? ? Ha Hs]; subst.
  cbn [drop_space]. rewrite Ha. by apply IH.
Qed.

Lemma strip_blank (s : string) :
  Forall (fun a => is_space1 a = true) (list_ascii_of_string s) ->
  strip s = "".
Proof.
  intros H. unfold strip, rstrip, lstrip.
  rewrite (drop_space_blank true (string_rev s)); [reflexivity |].
  unfold string_rev. rewrite list_ascii_of_string_of_list_ascii.
  by apply Forall_rev.
Qed.

(** X25.  A URL made of blanks only (spaces, tabs, line ends) counts as
    no URL: [main] prints the no-URL message and leaves with status 1,
    the scheme test is not reached. *)
Theorem main_blank_url {FS : Type} (env : Env FS) (w : World FS)
    (raw : string) :
  raw_url env = Some raw ->
  Forall (fun a => is_space1 a = true) (list_ascii_of_string raw) ->
  main env w
  = (Raise (SystemExit 1),
     mkWorld
       (stdout w +:+ banner env +:+ "❌  No URL provided. Exiting." +:+ LF)
       (fs w) (transfers w)).
Proof.
  intros Hraw Hblank. rewrite (main_run env w raw Hraw). cbv zeta.
  rewrite (strip_blank raw Hblank). cbn [truthy String.eqb negb stdout].
  by rewrite str_app_assoc.
Qed.

(** ** The further properties on concrete runs *)

Lemma progress_hook_error_witness :
  progress_hook env_success event_error empty_world
  = (Ret tt,
     mkWorld (LF +:+ "  ❌  An error occurred during download." +:+ LF) [] []).
Proof. exact (progress_hook_error env_success event_error empty_world eq_refl). Defined.

Lemma progress_hook_missing_status_witness :
  progress_hook env_success ∅ empty_world
  = (Raise (Exc (KeyError "status")), empty_world).
Proof. exact (progress_hook_missing_status env_success ∅ empty_world eq_refl). Defined.

Lemma progress_hook_finished_missing_filename_witness :
  progress_hook env_success event_finished_no_file empty_world
  = (Raise (Exc (KeyError "filename")), empty_world).
Proof.
  exact (progress_hook_finished_missing_filename env_success
           event_finished_no_file empty_world eq_refl eq_refl).
Defined.

Lemma progress_hook_reads_five_keys_witness :
  progress_hook env_success event_noisy empty_world
  = progress_hook env_success event_downloading empty_world.
Proof.
  apply progress_hook_reads_five_keys. intros key Hkey.
  rewrite !elem_of_cons, elem_of_nil in Hkey.
  destruct Hkey as [-> | [-> | [-> | [-> | [-> | []]]]]]; reflexivity.
Defined.

Lemma progress_hook_each_then_finished_witness :
  progress_hook_each env_success
    [event_bare; event_downloading; event_finished] empty_world
  = (Ret tt,
     mkWorld
       (CR +:+ "  ⬇  ?%  |  speed: ?  |  ETA: ?   "
        +:+ CR +:+ "  ⬇  42.0%  |  speed: 1.2MiB/s  |  ETA: 00:03   "
        +:+ LF +:+ "  ✔  Download complete → clip.mp4" +:+ LF)
       [] []).
Proof.
  refine (progress_hook_each_then_finished env_success
            [event_bare; event_downloading] event_finished
            "tiktok_downloads/user/clip.mp4" empty_world _ eq_refl eq_refl).
  repeat constructor.
Defined.

Lemma progress_hook_each_stops_at_error_witness :
  progress_hook_each env_success [event_bare; ∅; event_finished] empty_world
  = (Raise (Exc (KeyError "status")),
     mkWorld (CR +:+ "  ⬇  ?%  |  speed: ?  |  ETA: ?   ") [] []).
Proof.
  refine (progress_hook_each_stops_at_error env_success [event_bare]
            [event_finished] ∅ empty_world _ eq_refl).
  repeat constructor.
Defined.

Lemma download_tiktok_makedirs_fails_witness :
  download_tiktok env_readonly tiktok_url "tiktok_downloads" empty_world
  = (Raise (Exc (OSError "[Errno 13] Permission denied")), empty_world).
Proof.
  exact (download_tiktok_makedirs_fails env_readonly tiktok_url
           "tiktok_downloads" empty_world _ [] eq_refl).
Defined.

Lemma download_tiktok_fixed_settings_witness :
  exists opts,
    transfers
      (snd (download_tiktok env_success tiktok_url "tiktok_downloads" empty_world))
    = [(tiktok_url, opts)] /\
    opts !! "outtmpl"
    = Some (VStr "tiktok_downloads/%(uploader)s/%(title)s.%(ext)s") /\
    opts !! "nooverwrites" = Some (VBool true).
Proof.
  destruct (download_tiktok_fixed_settings env_success tiktok_url
              "tiktok_downloads" empty_world ["tiktok_downloads"] eq_refl)
    as (opts & Hlog & Hout & _ & Hno & _).
  exists opts. repeat split; assumption.
Defined.

Lemma download_tiktok_option_keys_witness :
  exists opts,
    transfers
      (snd (download_tiktok env_failure tiktok_url "tiktok_downloads" empty_world))
    = [(tiktok_url, opts)] /\
    dom opts
    = ({[ "outtmpl"; "format"; "merge_output_format"; "nooverwrites";
          "quiet"; "no_warnings"; "progress_hooks"; "http_headers";
          "postprocessors" ]} : gset string).
Proof.
  destruct (download_tiktok_option_keys env_failure tiktok_url
              "tiktok_downloads" empty_world ["tiktok_downloads"] eq_refl)
    as (opts & Hlog & Hdom).
  exists opts. split; [exact Hlog |]. rewrite Hdom. reflexivity.
Defined.

Lemma impersonation_enabled_witness :
  exists opts,
    transfers
      (snd (download_tiktok env_success tiktok_url "tiktok_downloads" empty_world))
    = [(tiktok_url, opts)] /\
    opts !! "impersonate"
    = Some (VTarget {| client := "chrome"; version := "124" |}).
Proof.
  exact (proj2 (impersonation_enabled env_success tiktok_url
                  "tiktok_downloads" empty_world ["tiktok_downloads"]
                  eq_refl eq_refl)).
Defined.

Lemma extract_info_DownloadError_never_escapes_witness :
  fst (download_tiktok env_failure tiktok_url "tiktok_downloads" empty_world)
  ≠ Raise (Exc (DownloadError "ERROR: Unable to extract webpage video data")).
Proof.
  apply (extract_info_DownloadError_never_escapes env_failure tiktok_url
           "tiktok_downloads" empty_world ["tiktok_downloads"] _ _ _
           eq_refl eq_refl).
  intros st. discriminate.
Defined.

Lemma download_tiktok_leaves_engine_files_witness :
  fs (snd (download_tiktok env_failure tiktok_url "tiktok_downloads" empty_world))
  = ["tiktok_downloads"].
Proof.
  destruct (download_tiktok_leaves_engine_files env_failure tiktok_url
              "tiktok_downloads" empty_world ["tiktok_downloads"]
              _ _ _ _ _ eq_refl eq_refl eq_refl)
    as (res & own & H).
  rewrite H. reflexivity.
Defined.

Lemma main_end_of_input_witness :
  fst (main env_eof empty_world) = Raise (Exc EOFError) /\
  exit_code env_eof empty_world = 1%Z.
Proof.
  destruct (main_end_of_input env_eof empty_world) as [Hm Hx];
    [cbn; lia | reflexivity |].
  split; [by rewrite Hm | exact Hx].
Defined.

Lemma main_rejects_other_first_letter_witness :
  fst (main env_uppercase empty_world) = Raise (SystemExit 1) /\
  exit_code env_uppercase empty_world = 1%Z /\
  fs (snd (main env_uppercase empty_world)) = [] /\
  transfers (snd (main env_uppercase empty_world)) = [].
Proof.
  apply (main_rejects_other_first_letter env_uppercase empty_world
           "HTTPS://www.tiktok.com/@user/video/123" "H"
           "TTPS://www.tiktok.com/@user/video/123");
    [reflexivity | reflexivity | discriminate].
Defined.


Lemma main_uses_first_argument_only_witness :
  main (with_cli env_failure ["main.py"; tiktok_url; "--verbose"] (Some "x"))
    empty_world
  = main (with_cli env_failure ["main.py"; tiktok_url] None) empty_world.
Proof.
  apply main_uses_first_argument_only; [cbn; lia | cbn; lia | reflexivity].
Defined.

Lemma ensure_packages_present_witness :
  ensure_packages (pip_ok ["yt_dlp"; "curl_cffi"]) empty_world
  = (Ret tt, empty_world).
Proof.
  apply ensure_packages_present; reflexivity.
Defined.

Lemma ensure_packages_other_import_error_witness :
  let pip :=
    {| sys_executable := "/usr/bin/python3";
       py_import := fun _ (_ : list string) =>
         Some (Exc (OtherException "SyntaxError" "invalid syntax"));
       check_call := fun _ st => (None, st) |} in
  ensure_packages pip empty_world
  = (Raise (Exc (OtherException "SyntaxError" "invalid syntax")), empty_world).
Proof.
  intros pip. apply ensure_packages_other_import_error;
    [reflexivity | discriminate].
Defined.

Lemma ensure_packages_install_fails_witness :
  ensure_packages pip_broken empty_world
  = (Raise (Exc (OtherException "CalledProcessError"
                   "returned non-zero exit status 1")),
     mkWorld ("📦 Installing yt-dlp ..." +:+ LF) [] []).
Proof.
  exact (ensure_packages_install_fails pip_broken empty_world
           "No module named 'yt_dlp'" _ ("📦 Installing yt-dlp ..." +:+ LF) []
           eq_refl eq_refl).
Defined.

Lemma ensure_packages_installs_curl_cffi_witness :
  ensure_packages (pip_ok ["yt_dlp"]) empty_world
  = (Ret tt,
     mkWorld
       ("📦 Installing curl_cffi ..." +:+ LF +:+ "✔  curl_cffi installed."
        +:+ LF +:+ LF)
       ["curl_cffi"] []).
Proof.
  exact (ensure_packages_installs_curl_cffi (pip_ok ["yt_dlp"]) empty_world
           "No module named 'curl_cffi'" ("📦 Installing curl_cffi ..." +:+ LF)
           ["curl_cffi"] eq_refl eq_refl eq_refl).
Defined.

Lemma module_runs_main_witness :
  module (pip_ok ["yt_dlp"; "curl_cffi"]) env_invalid true empty_world
  = main env_invalid empty_world /\
  module (pip_ok ["yt_dlp"; "curl_cffi"]) env_invalid false empty_world
  = (Ret tt, empty_world).
Proof.
  split.
  - exact (module_runs_main (pip_ok ["yt_dlp"; "curl_cffi"]) env_invalid true
             empty_world eq_refl eq_refl).
  - exact (module_runs_main (pip_ok ["yt_dlp"; "curl_cffi"]) env_invalid false
             empty_world eq_refl eq_refl).
Defined.

Lemma module_import_fails_after_bootstrap_witness :
  fst (module pip_noop env_failure true empty_world)
  = Raise (Exc (ImportError "No module named 'yt_dlp'")).
Proof.
  erewrite (module_import_fails_after_bootstrap pip_noop env_failure true
              empty_world);
    [reflexivity | vm_compute; reflexivity | reflexivity].
Defined.

Lemma main_blank_url_witness :
  fst (main (posix_env ["main.py"] (Some "   ") None None (inr None))
         empty_world)
  = Raise (SystemExit 1).
Proof.
  rewrite (main_blank_url (posix_env ["main.py"] (Some "   ") None None (inr None))
             empty_world "   " eq_refl);
    [reflexivity | repeat constructor].
Defined.
